(** * The Azure blob physical backend (physical/azure/azure.go)

    A shallow embedding of [NewAzureBackend], [Put], [Get], [Delete] and
    [List], together with the library functions they call, and the
    properties of the storage contract that follow from the code. *)

From Stdlib Require Import ZArith Ascii String.
From stdpp Require Import gmap strings list sorting.

Local Open Scope Z_scope.

(** ** Go strings

    A Go string is a sequence of bytes; [string] is a sequence of [ascii],
    one per byte.  Comparison of Go strings is bytewise lexicographic,
    which is [String.compare]. *)

Definition len_string (s : string) : Z := Z.of_nat (String.length s).

(** [strings.HasPrefix(s, prefix)] *)
Definition strings_HasPrefix (s prefix : string) : bool := String.prefix prefix s.

(** [strings.TrimPrefix(s, prefix)]: [s] without the leading [prefix]; [s]
    itself when it does not start with [prefix]. *)
Definition strings_TrimPrefix (s prefix : string) : string :=
  if strings_HasPrefix s prefix
  then String.substring (String.length prefix)
                        (String.length s - String.length prefix) s
  else s.

(** [strings.Index(s, substr)]: the index of the first instance of [substr]
    in [s], or -1. *)
Fixpoint strings_Index (s substr : string) : Z :=
  if String.prefix substr s then 0
  else match s with
       | EmptyString => -1
       | String _ s' =>
           let i := strings_Index s' substr in
           if i =? -1 then -1 else i + 1
       end.

(** The slice expression [s[:hi]]. *)
Definition slice_to (s : string) (hi : Z) : string :=
  String.substring 0 (Z.to_nat hi) s.

(** The order of [sort.Strings]: [s <= t] on Go strings. *)
Definition string_le (s t : string) : Prop := String.leb s t = true.

#[global] Instance string_le_dec (s t : string) : Decision (string_le s t) :=
  decide (String.leb s t = true).

(** [sort.Strings(keys)]: sorts in increasing order.  The order is total
    and antisymmetric, so the sorted list is unique (see
    [sort_Strings_unique]) and any sorting algorithm is a model. *)
Definition sort_Strings (keys : list string) : list string :=
  merge_sort string_le keys.

(** Modelled from the spec: strutil.AppendIfMissing (sdk/helper/strutil) is
    not among the sources; the spec says the key is added "only if not
    already present in the result". *)
Definition strutil_AppendIfMissing (slice : list string) (i : string) : list string :=
  if decide (i ∈ slice) then slice else slice ++ [i].

(** Slices of bytes. *)
Definition len {A} (b : list A) : Z := Z.of_nat (length b).

(** ** Errors

    Go's [error] values, as far as the backend tells them apart: plain
    messages ([errors.New], [fmt.Errorf], transport failures), the
    structured [azblob.StorageError] with its service code,
    [*strconv.NumError], and the wrapper made by [errwrap.Wrapf]. *)

Definition ServiceCodeType : Type := string.
Definition ServiceCodeBlobNotFound : ServiceCodeType := "BlobNotFound".
Definition ServiceCodeContainerNotFound : ServiceCodeType := "ContainerNotFound".

Inductive error : Type :=
  | errorString (s : string)
  | StorageError (ServiceCode : ServiceCodeType) (message : string)
  | NumError (Func Num : string) (Err : error)
  | wrappedError (Outer : string) (Inner : error).

#[global] Instance error_eq_dec : EqDecision error.
Proof. solve_decision. Defined.

(** A library call returning [(T, error)]: the value, or the error. *)
Inductive result (T : Type) : Type :=
  | Ok (v : T)
  | Err (err : error).
Arguments Ok {T} v.
Arguments Err {T} err.

(** [var e azblob.StorageError; errors.As(err, &e)] followed by
    [e.ServiceCode()]: the service code of the first structured error in
    the chain of [err], if there is one. *)
Fixpoint errors_As_StorageError (err : error) : option ServiceCodeType :=
  match err with
  | errorString _ => None
  | StorageError code _ => Some code
  | NumError _ _ inner => errors_As_StorageError inner
  | wrappedError _ inner => errors_As_StorageError inner
  end.

(** [errwrap.Wrapf(format, err)] for a non-nil [err]: [Outer] is [format]
    (whose verb [{{err}}] stands for the message of [err]), [Inner] is
    [err]. *)
Definition errwrap_Wrapf (format : string) (err : error) : error :=
  wrappedError format err.

Definition fmt_Errorf (msg : string) : error := errorString msg.

(** ** strconv.Atoi *)

Definition ErrSyntax : error := errorString "invalid syntax".
Definition ErrRange : error := errorString "value out of range".

Definition digit_of (c : ascii) : option Z :=
  let n := Z.of_N (N_of_ascii c) in
  if (48 <=? n) && (n <=? 57) then Some (n - 48) else None.

(** The digit loop of [strconv.ParseUint(s, 10, 64)]: a byte that is not a
    digit is a syntax error, a value above [1<<64 - 1] a range error. *)
Fixpoint parseUint_loop (s : string) (n : Z) : result Z :=
  match s with
  | EmptyString => Ok n
  | String c s' =>
      match digit_of c with
      | None => Err ErrSyntax
      | Some d =>
          if 2 ^ 64 - 1 <? n * 10 + d then Err ErrRange
          else parseUint_loop s' (n * 10 + d)
      end
  end.

(** [strconv.Atoi(s)] with a 64-bit [int]: an optional sign and at least
    one decimal digit, within [-(1<<63)] and [1<<63 - 1]. *)
Definition strconv_Atoi (s : string) : result Z :=
  match s with
  | EmptyString => Err (NumError "Atoi" s ErrSyntax)
  | String c s' =>
      let neg := bool_decide (c = "-"%char) in
      let body := if bool_decide (c = "+"%char) || neg then s' else s in
      match body with
      | EmptyString => Err (NumError "Atoi" s ErrSyntax)
      | _ =>
          match parseUint_loop body 0 with
          | Err e => Err (NumError "Atoi" s e)
          | Ok un =>
              if negb neg && (2 ^ 63 <=? un) then Err (NumError "Atoi" s ErrRange)
              else if neg && (2 ^ 63 <? un) then Err (NumError "Atoi" s ErrRange)
              else Ok (if neg then - un else un)
          end
      end
  end.

(** ** Data of the backend and of the client library *)

Definition MaxBlobSize : Z := 1024 * 1024 * 4.
Definition MaxListResults : Z := 5000.

(** [physical.Entry] *)
Record Entry : Type := { Key : string; Value : list Byte.byte }.

(** [context.Context], as far as the backend builds it. *)
Inductive Context : Type :=
  | Background
  | WithTimeout (parent : Context) (seconds : Z).

Record Environment : Type := { Name : string; StorageEndpointSuffix : string }.
Record URL : Type := { raw : string }.
Record SharedKeyCredential : Type := { accountName : string; accountKey : string }.
Record Pipeline : Type := { credential : SharedKeyCredential }.
Record ContainerURL : Type := { containerURL_url : URL; containerURL_p : Pipeline }.
Record BlockBlobURL : Type := { blob_container : ContainerURL; blob_name : string }.

Definition NewPipeline (c : SharedKeyCredential) : Pipeline := {| credential := c |}.
Definition NewContainerURL (u : URL) (p : Pipeline) : ContainerURL :=
  {| containerURL_url := u; containerURL_p := p |}.
Definition NewBlockBlobURL (c : ContainerURL) (blobName : string) : BlockBlobURL :=
  {| blob_container := c; blob_name := blobName |}.

(** [azblob.Marker]: [Val] is nil before the first page, and the empty
    string once the listing is complete. *)
Record Marker : Type := { Val : option string }.

Definition NotDone (m : Marker) : bool :=
  match Val m with
  | None => true
  | Some v => negb (String.eqb v "")
  end.

Record BlobItem : Type := { BlobItem_Name : string }.
Record BlobFlatListSegment : Type := { BlobItems : list BlobItem }.
Record ListBlobsFlatSegmentResponse : Type :=
  { Segment : BlobFlatListSegment; NextMarker : Marker }.

(** A successful download: what [ioutil.ReadAll] gets out of the body, the
    bytes read and the error that stopped the reading, if any. *)
Record DownloadResponse : Type :=
  { body_data : list Byte.byte; body_err : option error }.

Record Logger : Type := { IsDebug : bool }.

(** Modelled from the spec: physical.PermitPool (sdk/physical) is not among
    the sources; a counting semaphore "initialized with a configured
    capacity".  Only the requested capacity is kept; blocking is not
    modelled. *)
Record PermitPool : Type := { permits : Z }.
Definition NewPermitPool (n : Z) : PermitPool := {| permits := n |}.

Record AzureBackend : Type :=
  { container : ContainerURL; logger : Logger; permitPool : PermitPool }.

(** ** Effects

    A call of the backend is observed through the events it causes: the
    requests sent to the remote store, the permits taken and given back,
    the metrics and the log lines. *)

Inductive RemoteCall : Type :=
  | GetProperties (c : ContainerURL)
  | Create (c : ContainerURL)
  | UploadBufferToBlockBlob (b : BlockBlobURL) (value : list Byte.byte) (BlockSize : Z)
  | Download (b : BlockBlobURL)
  | DeleteBlob (b : BlockBlobURL)
  | ListBlobsFlatSegment (c : ContainerURL) (marker : Marker) (Prefix : string)
      (MaxResults : Z).

Inductive Event : Type :=
  | Request (ctx : Context) (call : RemoteCall)
  | Acquire (p : PermitPool)
  | Release (p : PermitPool)
  | MeasureSince (key : list string)
  | ReadAll
  | Close
  | Debug (msg key : string) (val : Z).

Definition is_remote (e : Event) : bool :=
  match e with Request _ _ => true | _ => false end.

Definition is_acquire (e : Event) : bool :=
  match e with Acquire _ => true | _ => false end.

(** The remote store, a black box answering each request. *)
Record Remote : Type := {
  remote_GetProperties : Context -> ContainerURL -> option error;
  remote_Create : Context -> ContainerURL -> option error;
  remote_Upload : Context -> BlockBlobURL -> list Byte.byte -> option error;
  remote_Download : Context -> BlockBlobURL -> result DownloadResponse;
  remote_Delete : Context -> BlockBlobURL -> option error;
  remote_ListBlobsFlatSegment :
    Context -> ContainerURL -> Marker -> string -> Z ->
    result ListBlobsFlatSegmentResponse
}.

(** The library functions whose results the backend only passes on. *)
Class Library : Type := {
  azure_EnvironmentFromURL : string -> result Environment;
  azure_EnvironmentFromName : string -> result Environment;
  azblob_NewSharedKeyCredential : string -> string -> result SharedKeyCredential;
  url_Parse : string -> result URL;
  (** the verb [%q] of [fmt.Sprintf] *)
  strconv_Quote : string -> string
}.

(** A computation: its value and the events it caused, in order. *)
Definition Eff (A : Type) : Type := A * list Event.

Definition ret {A} (a : A) : Eff A := (a, []).
Definition emit (e : Event) : Eff unit := (tt, [e]).

(** The body of a function with result type [R]: [inl r] once a [return r]
    has been executed, [inr a] while the body goes on with [a]. *)
Definition Body (R A : Type) : Type := Eff (R + A).

Definition Return {R A} (r : R) : Body R A := (inl r, []).
Definition step {R A} (m : Eff A) : Body R A := (inr (fst m), snd m).
Definition seq {R A B} (m : Body R A) (k : A -> Body R B) : Body R B :=
  let '(x, t) := m in
  match x with
  | inl r => (inl r, t)
  | inr a => let '(y, t') := k a in (y, t ++ t')
  end.

(** [defer f(); body]: [f] runs when the function returns, on every path. *)
Definition defer {R A} (e : Event) (body : Body R A) : Body R A :=
  (fst body, snd body ++ [e]).

(** A function whose body ends in a [return] on every path. *)
Definition func {R} (body : Body R R) : Eff R :=
  (match fst body with inl r => r | inr r => r end, snd body).

Declare Scope body_scope.
Delimit Scope body_scope with body.
Notation "'let!' x ':=' m 'in' k" := (seq m (fun x => k))
  (at level 10, x name, m at level 100, k at level 200) : body_scope.
Notation "'do!' m 'in' k" := (seq m (fun _ => k))
  (at level 10, m at level 100, k at level 200) : body_scope.

(** The requests, each an event and the answer of the remote store. *)
Section requests.
Context (remote : Remote).

Definition call_GetProperties ctx c : Eff (option error) :=
  (remote_GetProperties remote ctx c, [Request ctx (GetProperties c)]).
Definition call_Create ctx c : Eff (option error) :=
  (remote_Create remote ctx c, [Request ctx (Create c)]).
Definition call_Upload ctx value b blockSize : Eff (option error) :=
  (remote_Upload remote ctx b value,
   [Request ctx (UploadBufferToBlockBlob b value blockSize)]).
Definition call_Download ctx b : Eff (result DownloadResponse) :=
  (remote_Download remote ctx b, [Request ctx (Download b)]).
Definition call_Delete ctx b : Eff (option error) :=
  (remote_Delete remote ctx b, [Request ctx (DeleteBlob b)]).
Definition call_ListBlobsFlatSegment ctx c marker pfx maxResults
  : Eff (result ListBlobsFlatSegmentResponse) :=
  (remote_ListBlobsFlatSegment remote ctx c marker pfx maxResults,
   [Request ctx (ListBlobsFlatSegment c marker pfx maxResults)]).

End requests.

(** ** The backend *)

Definition os_Getenv (env : gmap string string) (k : string) : string :=
  default "" (env !! k).

(** [conf[k]] on a [map[string]string]: the empty string for a missing key. *)
Definition conf_at (conf : gmap string string) (k : string) : string :=
  default "" (conf !! k).

Section backend.
Context {lib : Library} (remote : Remote).

Local Open Scope body_scope.

(** [NewAzureBackend(conf, logger)], in the process environment [env]. *)
Definition NewAzureBackend (env conf : gmap string string) (logger : Logger)
  : Eff (option AzureBackend * option error) :=
  func (
    let name := os_Getenv env "AZURE_BLOB_CONTAINER" in
    let name := if String.eqb name "" then conf_at conf "container" else name in
    if String.eqb name "" then
      Return (None, Some (fmt_Errorf "'container' must be set"))
    else
    let accountName := os_Getenv env "AZURE_ACCOUNT_NAME" in
    let accountName :=
      if String.eqb accountName "" then conf_at conf "accountName" else accountName in
    if String.eqb accountName "" then
      Return (None, Some (fmt_Errorf "'accountName' must be set"))
    else
    let accountKey := os_Getenv env "AZURE_ACCOUNT_KEY" in
    let accountKey :=
      if String.eqb accountKey "" then conf_at conf "accountKey" else accountKey in
    if String.eqb accountKey "" then
      Return (None, Some (fmt_Errorf "'accountKey' must be set"))
    else
    let environmentName := os_Getenv env "AZURE_ENVIRONMENT" in
    let environmentName :=
      if String.eqb environmentName "" then
        let environmentName := conf_at conf "environment" in
        if String.eqb environmentName "" then "AzurePublicCloud" else environmentName
      else environmentName in
    let environmentURL := os_Getenv env "AZURE_ARM_ENDPOINT" in
    let environmentURL :=
      if String.eqb environmentURL "" then conf_at conf "arm_endpoint"
      else environmentURL in
    let! environment :=
      (if negb (String.eqb environmentURL "") then
         match azure_EnvironmentFromURL environmentURL with
         | Err err =>
             let errorMsg :=
               "failed to look up Azure environment descriptor for URL "
               +:+ strconv_Quote environmentURL +:+ ": {{err}}" in
             Return (None, Some (errwrap_Wrapf errorMsg err))
         | Ok e => step (ret e)
         end
       else
         match azure_EnvironmentFromName environmentName with
         | Err err =>
             let errorMsg :=
               "failed to look up Azure environment descriptor for name "
               +:+ strconv_Quote environmentName +:+ ": {{err}}" in
             Return (None, Some (errwrap_Wrapf errorMsg err))
         | Ok e => step (ret e)
         end) in
    let! credential :=
      match azblob_NewSharedKeyCredential accountName accountKey with
      | Err err =>
          Return (None, Some (errwrap_Wrapf "failed to create Azure client: {{err}}" err))
      | Ok c => step (ret c)
      end in
    let! URL :=
      match url_Parse ("https://" +:+ accountName +:+ ".blob."
                       +:+ StorageEndpointSuffix environment +:+ "/" +:+ name) with
      | Err err =>
          Return (None, Some (errwrap_Wrapf "failed to create Azure client: {{err}}" err))
      | Ok u => step (ret u)
      end in
    let p := NewPipeline credential in
    let ctx := WithTimeout Background 5 in
    let containerURL := NewContainerURL URL p in
    let! err := step (call_GetProperties remote ctx containerURL) in
    do! match err with
        | Some err =>
            match errors_As_StorageError err with
            | Some code =>
                if decide (code = ServiceCodeContainerNotFound) then
                  let! err := step (call_Create remote ctx containerURL) in
                  match err with
                  | Some err =>
                      Return (None, Some (errwrap_Wrapf
                        ("failed to create " +:+ strconv_Quote name
                         +:+ " container: {{err}}") err))
                  | None => step (ret tt)
                  end
                else
                  Return (None, Some (errwrap_Wrapf
                    ("failed to get properties for container "
                     +:+ strconv_Quote name +:+ ": {{err}}") err))
            | None => step (ret tt)
            end
        | None => step (ret tt)
        end in
    let! maxParInt :=
      match conf !! "max_parallel" with
      | Some maxParStr =>
          match strconv_Atoi maxParStr with
          | Err err =>
              Return (None, Some (errwrap_Wrapf
                "failed parsing max_parallel parameter: {{err}}" err))
          | Ok maxParInt =>
              do! (if IsDebug logger
                   then step (emit (Debug "max_parallel set" "max_parallel" maxParInt))
                   else step (ret tt)) in
              step (ret maxParInt)
          end
      | None => step (ret 0)
      end in
    let a := {| container := containerURL;
                logger := logger;
                permitPool := NewPermitPool maxParInt |} in
    Return (Some a, None)).

(** [Put(ctx, entry)] *)
Definition Put (a : AzureBackend) (ctx : Context) (entry : Entry) : Eff (option error) :=
  func (
    defer (MeasureSince ["azure"; "put"]) (
      if len (Value entry) >=? MaxBlobSize then
        Return (Some (fmt_Errorf
          "value is bigger than the current supported limit of 4MBytes"))
      else
      do! step (emit (Acquire (permitPool a))) in
      defer (Release (permitPool a)) (
        let blobURL := NewBlockBlobURL (container a) (Key entry) in
        let! err := step (call_Upload remote ctx (Value entry) blobURL MaxBlobSize) in
        Return err))).

(** [Get(ctx, key)] *)
Definition Get (a : AzureBackend) (ctx : Context) (key : string)
  : Eff (option Entry * option error) :=
  func (
    defer (MeasureSince ["azure"; "get"]) (
      do! step (emit (Acquire (permitPool a))) in
      defer (Release (permitPool a)) (
        let blobURL := NewBlockBlobURL (container a) key in
        let! r := step (call_Download remote ctx blobURL) in
        match r with
        | Err err =>
            do! match errors_As_StorageError err with
                | Some code =>
                    if decide (code = ServiceCodeBlobNotFound) then
                      Return (None, None)
                    else
                      Return (None, Some (errwrap_Wrapf
                        ("failed to download blob " +:+ strconv_Quote key
                         +:+ ": {{err}}") err))
                | None => step (ret tt)
                end in
            Return (None, Some err)
        | Ok res =>
            defer Close (
              do! step (emit ReadAll) in
              let data := body_data res in
              let err := body_err res in
              let ent := {| Key := key; Value := data |} in
              Return (Some ent, err))
        end))).

(** [Delete(ctx, key)] *)
Definition Delete (a : AzureBackend) (ctx : Context) (key : string) : Eff (option error) :=
  func (
    defer (MeasureSince ["azure"; "delete"]) (
      do! step (emit (Acquire (permitPool a))) in
      defer (Release (permitPool a)) (
        let blobURL := NewBlockBlobURL (container a) key in
        let! err := step (call_Delete remote ctx blobURL) in
        do! match err with
            | Some err =>
                match errors_As_StorageError err with
                | Some code =>
                    if decide (code = ServiceCodeBlobNotFound) then
                      Return None
                    else
                      Return (Some (errwrap_Wrapf
                        ("failed to delete blob " +:+ strconv_Quote key
                         +:+ ": {{err}}") err))
                | None => step (ret tt)
                end
            | None => step (ret tt)
            end in
        Return err))).

(** The body of the [range] loop of [List], for one blob. *)
Definition List_item (pfx : string) (keys : list string) (blobInfo : BlobItem)
  : list string :=
  let key := strings_TrimPrefix (BlobItem_Name blobInfo) pfx in
  let i := strings_Index key "/" in
  if i =? -1 then keys ++ [key]
  else strutil_AppendIfMissing keys (slice_to key (i + 1)).

(** The pagination loop of [List]: [for marker := ...; marker.NotDone(); {...}].
    The remote store decides how long it runs, so the loop takes [fuel],
    one unit per test of the condition; [Return None] stands for a loop
    still running when the fuel is spent. *)
Fixpoint List_loop (fuel : nat) (a : AzureBackend) (ctx : Context) (pfx : string)
    (marker : Marker) (keys : list string)
  : Body (option (option (list string) * option error)) (list string) :=
  match fuel with
  | O => Return None
  | S fuel' =>
      if NotDone marker then
        let! r := step (call_ListBlobsFlatSegment remote ctx (container a) marker
                          pfx MaxListResults) in
        match r with
        | Err err => Return (Some (None, Some err))
        | Ok listBlob =>
            let keys := foldl (List_item pfx) keys (BlobItems (Segment listBlob)) in
            List_loop fuel' a ctx pfx (NextMarker listBlob) keys
        end
      else step (ret keys)
  end.

(** [List(ctx, prefix)]; [None] when the loop outlives the fuel. *)
Definition List (fuel : nat) (a : AzureBackend) (ctx : Context) (pfx : string)
  : Eff (option (option (list string) * option error)) :=
  func (
    defer (MeasureSince ["azure"; "list"]) (
      do! step (emit (Acquire (permitPool a))) in
      defer (Release (permitPool a)) (
        let keys := [] in
        let! keys := List_loop fuel a ctx pfx {| Val := None |} keys in
        let keys := sort_Strings keys in
        Return (Some (Some keys, None))))).

End backend.

(** ** The remote list operation, seen from the loop of [List] *)

Definition blobNames (pages : list (list BlobItem)) : list string :=
  BlobItem_Name <$> concat pages.

(** [serves remote ctx c pfx m pages]: asked from marker [m] on, the remote
    store answers with the successive [pages] and then reports the listing
    complete. *)
Inductive serves (remote : Remote) (ctx : Context) (c : ContainerURL) (pfx : string)
  : Marker -> list (list BlobItem) -> Prop :=
  | serves_done m :
      NotDone m = false -> serves remote ctx c pfx m []
  | serves_page m resp pages :
      NotDone m = true ->
      remote_ListBlobsFlatSegment remote ctx c m pfx MaxListResults = Ok resp ->
      serves remote ctx c pfx (NextMarker resp) pages ->
      serves remote ctx c pfx m (BlobItems (Segment resp) :: pages).

(** [breaks remote ctx c pfx m pages err]: asked from marker [m] on, the
    remote store answers with [pages] and then fails with [err]. *)
Inductive breaks (remote : Remote) (ctx : Context) (c : ContainerURL) (pfx : string)
  : Marker -> list (list BlobItem) -> error -> Prop :=
  | breaks_now m err :
      NotDone m = true ->
      remote_ListBlobsFlatSegment remote ctx c m pfx MaxListResults = Err err ->
      breaks remote ctx c pfx m [] err
  | breaks_later m resp pages err :
      NotDone m = true ->
      remote_ListBlobsFlatSegment remote ctx c m pfx MaxListResults = Ok resp ->
      breaks remote ctx c pfx (NextMarker resp) pages err ->
      breaks remote ctx c pfx m (BlobItems (Segment resp) :: pages) err.

(** A string without the path delimiter. *)
Definition no_slash (s : string) : Prop :=
  "/"%char ∉ String.list_ascii_of_string s.

(** The name of a blob without the prefix, as the loop of [List] takes it. *)
Definition key_of (pfx : string) (blobInfo : BlobItem) : string :=
  strings_TrimPrefix (BlobItem_Name blobInfo) pfx.

(** The keys [List] accumulates from the names of all pages, before sorting. *)
Definition List_keys (pfx : string) (pages : list (list BlobItem)) : list string :=
  foldl (foldl (List_item pfx)) [] pages.

(** ** Remote stores and library functions to run the backend on *)

Fixpoint marker_of (i : nat) : string :=
  match i with O => "" | S i' => String "m" (marker_of i') end.

(** A remote store with fixed answers; the listing is the script [pages],
    page [i] being asked for with the marker [marker_of i]. *)
Definition scriptedRemote (probe create upload : option error)
    (download : result DownloadResponse) (delete : option error)
    (pages : list (result (list string))) : Remote :=
  {| remote_GetProperties := fun _ _ => probe;
     remote_Create := fun _ _ => create;
     remote_Upload := fun _ _ _ => upload;
     remote_Download := fun _ _ => download;
     remote_Delete := fun _ _ => delete;
     remote_ListBlobsFlatSegment := fun _ _ m _ _ =>
       let i := match Val m with None => O | Some v => String.length v end in
       match pages !! i with
       | Some (Ok names) =>
           Ok {| Segment := {| BlobItems := Build_BlobItem <$> names |};
                 NextMarker :=
                   {| Val := Some (if decide (S i < length pages)%nat
                                   then marker_of (S i) else "") |} |}
       | Some (Err err) => Err err
       | None => Err (errorString "invalid marker")
       end |}.

(** A remote store holding the objects [stored], listed in one page. *)
Definition storeRemote (stored : list string) : Remote :=
  {| remote_GetProperties := fun _ _ => None;
     remote_Create := fun _ _ => None;
     remote_Upload := fun _ _ _ => None;
     remote_Download := fun _ _ => Err (StorageError ServiceCodeBlobNotFound "");
     remote_Delete := fun _ _ => None;
     remote_ListBlobsFlatSegment := fun _ _ m pfx _ =>
       Ok {| Segment :=
               {| BlobItems :=
                    Build_BlobItem <$>
                      filter (fun n => strings_HasPrefix n pfx = true) stored |};
             NextMarker := {| Val := Some "" |} |} |}.

Definition quote_char : string := String "034"%char EmptyString.

Definition plainLibrary : Library :=
  {| azure_EnvironmentFromURL := fun u =>
       Ok {| Name := u; StorageEndpointSuffix := "core.example.net" |};
     azure_EnvironmentFromName := fun n =>
       if String.eqb n "AzurePublicCloud"
       then Ok {| Name := n; StorageEndpointSuffix := "core.windows.net" |}
       else Err (errorString "no cloud environment of that name");
     azblob_NewSharedKeyCredential := fun n k =>
       Ok {| accountName := n; accountKey := k |};
     url_Parse := fun s => Ok {| raw := s |};
     strconv_Quote := fun s => quote_char +:+ s +:+ quote_char |}.

Definition someBackend : AzureBackend :=
  {| container :=
       NewContainerURL {| raw := "https://acct.blob.core.windows.net/vault" |}
         (NewPipeline {| accountName := "acct"; accountKey := "a2V5" |});
     logger := {| IsDebug := false |};
     permitPool := NewPermitPool 0 |}.

(** The answer of the remote list operation for a store: the names of the
    stored objects that begin with [pfx], in the order of the store, cut
    into [pages]. *)
Definition lists_objects (stored : list string) (pfx : string)
    (pages : list (list BlobItem)) : Prop :=
  blobNames pages = filter (fun n => strings_HasPrefix n pfx = true) stored.

(** ** Configuration precedence *)

(** The settings that have an environment variable, with their key in the
    configuration map. *)
Definition settings : list (string * string) :=
  [ ("AZURE_BLOB_CONTAINER", "container");
    ("AZURE_ACCOUNT_NAME", "accountName");
    ("AZURE_ACCOUNT_KEY", "accountKey");
    ("AZURE_ENVIRONMENT", "environment");
    ("AZURE_ARM_ENDPOINT", "arm_endpoint") ].

Definition required_settings : list (string * string) := take 3 settings.

(** The environment variable first, the configuration map when the variable
    is unset or empty. *)
Definition env_first (env conf : gmap string string) (envVar key : string) : string :=
  let v := os_Getenv env envVar in
  if String.eqb v "" then conf_at conf key else v.

(** The order the specification words: the configuration map first, the
    environment variable when the map has no value. *)
Definition conf_first (env conf : gmap string string) (envVar key : string) : string :=
  let v := conf_at conf key in
  if String.eqb v "" then os_Getenv env envVar else v.

(** The configuration map in which every setting holds its [env_first]
    value. *)
Definition resolved (env conf : gmap string string) : gmap string string :=
  foldr (fun s m => <[s.2 := env_first env conf s.1 s.2]> m) conf settings.

(** The remote store [remote], with a container probe that succeeds. *)
Definition probe_ok (remote : Remote) : Remote :=
  {| remote_GetProperties := fun _ _ => None;
     remote_Create := remote_Create remote;
     remote_Upload := remote_Upload remote;
     remote_Download := remote_Download remote;
     remote_Delete := remote_Delete remote;
     remote_ListBlobsFlatSegment := remote_ListBlobsFlatSegment remote |}.

(** ** Further vocabulary for the properties *)

Definition is_release (e : Event) : bool :=
  match e with Release _ => true | _ => false end.

(** The key [List] makes of a name without its prefix: the name itself, or
    its first segment with the delimiter. *)
Definition List_entry (key : string) : string :=
  let i := strings_Index key "/" in
  if i =? -1 then key else slice_to key (i + 1).

(** A key one level below the prefix: a leaf, or one segment and the
    delimiter. *)
Definition one_level (k : string) : Prop :=
  no_slash k ∨ ∃ d, k = d +:+ "/" ∧ no_slash d.


(** The name of the cloud environment that is looked up when no endpoint is
    given. *)
Definition environment_name (env conf : gmap string string) : string :=
  let n := env_first env conf "AZURE_ENVIRONMENT" "environment" in
  if String.eqb n "" then "AzurePublicCloud" else n.

(** A remote store whose listing never completes: every page is empty and
    comes with a marker for a next page. *)
Definition endlessRemote : Remote :=
  {| remote_GetProperties := fun _ _ => None;
     remote_Create := fun _ _ => None;
     remote_Upload := fun _ _ _ => None;
     remote_Download := fun _ _ => Err (StorageError ServiceCodeBlobNotFound "");
     remote_Delete := fun _ _ => None;
     remote_ListBlobsFlatSegment := fun _ _ _ _ _ =>
       Ok {| Segment := {| BlobItems := [] |};
             NextMarker := {| Val := Some "more" |} |} |}.

(** * Properties *)

(** ** The string functions *)

Section string_facts.
Implicit Types s t u p d rest : string.

Lemma app_cons c p s : String c p +:+ s = String c (p +:+ s).
Proof. done. Qed.

Lemma app_empty s : "" +:+ s = s.
Proof. done. Qed.

Lemma prefix_app p s : String.prefix p (p +:+ s) = true.
Proof.
  induction p as [|c p IH]; simpl; [by destruct s|].
  by destruct (ascii_dec c c).
Qed.

Lemma substring_skip p s n :
  String.substring (String.length p) n (p +:+ s) = String.substring 0 n s.
Proof. induction p as [|c p IH]; simpl; [done|]. apply IH. Qed.

Lemma substring_all s : String.substring 0 (String.length s) s = s.
Proof. induction s as [|c s IH]; simpl; [done|]. by rewrite IH. Qed.

Lemma length_app p s :
  String.length (p +:+ s) = (String.length p + String.length s)%nat.
Proof. induction p as [|c p IH]; simpl; [done|]. by rewrite IH. Qed.

Lemma TrimPrefix_app p s : strings_TrimPrefix (p +:+ s) p = s.
Proof.
  unfold strings_TrimPrefix, strings_HasPrefix. rewrite prefix_app, substring_skip.
  rewrite length_app.
  replace (String.length p + String.length s - String.length p)%nat
    with (String.length s) by lia.
  apply substring_all.
Qed.

Lemma TrimPrefix_empty s : strings_TrimPrefix s "" = s.
Proof. apply (TrimPrefix_app "" s). Qed.

Lemma no_slash_cons c s : no_slash (String c s) ↔ c ≠ "/"%char ∧ no_slash s.
Proof.
  unfold no_slash. simpl. rewrite not_elem_of_cons. split; intros []; split; congruence.
Qed.

Lemma prefix_empty s : String.prefix "" s = true.
Proof. by destruct s. Qed.

Lemma Index_cons c s :
  strings_Index (String c s) "/" =
    if decide (c = "/"%char) then 0
    else if strings_Index s "/" =? -1 then -1 else strings_Index s "/" + 1.
Proof.
  change (strings_Index (String c s) "/") with
    (if (if ascii_dec "/" c then String.prefix "" s else false) then 0
     else if strings_Index s "/" =? -1 then -1 else strings_Index s "/" + 1).
  rewrite prefix_empty.
  destruct (ascii_dec "/" c), (decide (c = "/"%char)); congruence.
Qed.

Lemma Index_no_slash s : no_slash s → strings_Index s "/" = -1.
Proof.
  induction s as [|c s IH]; [done|].
  intros [Hc Hs]%no_slash_cons. rewrite Index_cons, decide_False by done.
  by rewrite (IH Hs).
Qed.

Lemma Index_slash d rest :
  no_slash d → strings_Index (d +:+ "/" +:+ rest) "/" = len_string d.
Proof.
  unfold len_string. induction d as [|c d IH].
  - intros _. change ("" +:+ "/" +:+ rest) with (String "/" rest).
    by rewrite Index_cons, decide_True.
  - intros [Hc Hd]%no_slash_cons.
    change (String c d +:+ "/" +:+ rest) with (String c (d +:+ "/" +:+ rest)).
    rewrite Index_cons, decide_False, (IH Hd) by done. cbn [String.length].
    destruct (Z.eqb_spec (Z.of_nat (String.length d)) (-1)); lia.
Qed.

Lemma slice_to_slash d rest :
  slice_to (d +:+ "/" +:+ rest) (len_string d + 1) = d +:+ "/".
Proof.
  unfold slice_to, len_string.
  replace (Z.to_nat (Z.of_nat (String.length d) + 1)) with (S (String.length d)) by lia.
  induction d as [|c d IH]; simpl; [by destruct rest|].
  by rewrite IH.
Qed.

Lemma no_slash_app_slash d : ¬ no_slash (d +:+ "/").
Proof.
  unfold no_slash. induction d as [|c d IH]; simpl.
  - intros Hn. apply Hn. left.
  - intros Hn. apply IH. intros Hin. apply Hn. by right.
Qed.

Lemma leb_trans s t u :
  String.leb s t = true → String.leb t u = true → String.leb s u = true.
Proof.
  unfold String.leb. revert t u.
  induction s as [|a s IH]; intros [|b t] [|c u]; simpl; try done.
  unfold Ascii.compare.
  destruct (N.compare_spec (N_of_ascii a) (N_of_ascii b)),
    (N.compare_spec (N_of_ascii b) (N_of_ascii c)),
    (N.compare_spec (N_of_ascii a) (N_of_ascii c));
    try done; try lia.
  apply IH.
Qed.

#[global] Instance string_le_total : Total string_le.
Proof. intros s t. apply String.leb_total. Qed.

#[global] Instance string_le_trans : Transitive string_le.
Proof. intros s t u. apply leb_trans. Qed.

#[global] Instance string_le_antisymm : AntiSymm (=) string_le.
Proof. intros s t. apply String.leb_antisym. Qed.

Lemma sort_Strings_sorted keys : StronglySorted string_le (sort_Strings keys).
Proof. apply StronglySorted_merge_sort; apply _. Qed.

Lemma sort_Strings_perm keys : sort_Strings keys ≡ₚ keys.
Proof. apply merge_sort_Permutation. Qed.

(** [sort.Strings] has one possible result, whatever the algorithm. *)
Lemma sort_Strings_unique keys sorted :
  StronglySorted string_le sorted → sorted ≡ₚ keys → sorted = sort_Strings keys.
Proof.
  intros Hs Hp. apply (StronglySorted_unique string_le); [done| |].
  - apply sort_Strings_sorted.
  - by rewrite sort_Strings_perm.
Qed.

End string_facts.

(** ** Values of function bodies *)

Section body_facts.
Context {R A B : Type}.

Lemma fst_seq (m : Body R A) (k : A → Body R B) :
  fst (seq m k) = match fst m with inl r => inl r | inr a => fst (k a) end.
Proof. unfold seq. destruct m as [[r|a] t]; [done|]. simpl. by destruct (k a). Qed.


Lemma fst_defer e (body : Body R A) : fst (defer e body) = fst body.
Proof. done. Qed.

Lemma fst_step (m : Eff A) : fst (step (R:=R) m) = inr (fst m).
Proof. done. Qed.

End body_facts.

(** ** The pagination loop *)

Section list_facts.
Context (remote : Remote) (a : AzureBackend) (ctx : Context) (pfx : string).

Lemma List_keys_concat pages :
  List_keys pfx pages = foldl (List_item pfx) [] (concat pages).
Proof.
  unfold List_keys. generalize (@nil string).
  induction pages as [|page pages IH]; intros keys; simpl; [done|].
  by rewrite foldl_app, IH.
Qed.

(** The loop ends when the remote store completes the listing, with the
    keys of all pages accumulated in order. *)
Lemma List_loop_serves m pages :
  serves remote ctx (container a) pfx m pages →
  ∀ fuel keys, (length pages < fuel)%nat →
    fst (List_loop remote fuel a ctx pfx m keys)
    = inr (foldl (foldl (List_item pfx)) keys pages).
Proof.
  induction 1 as [m Hm|m resp pages Hm Hresp _ IH]; intros [|fuel] keys Hf;
    simpl in Hf; try lia; cbn [List_loop]; rewrite Hm; [done|].
  rewrite fst_seq, fst_step. unfold call_ListBlobsFlatSegment. cbn [fst].
  rewrite Hresp. apply IH. lia.
Qed.

(** The loop is left by [return nil, err] when a page request fails. *)
Lemma List_loop_breaks m pages err :
  breaks remote ctx (container a) pfx m pages err →
  ∀ fuel keys, (length pages < fuel)%nat →
    fst (List_loop remote fuel a ctx pfx m keys) = inl (Some (None, Some err)).
Proof.
  induction 1 as [m err Hm Herr|m resp pages err Hm Hresp _ IH];
    intros [|fuel] keys Hf; simpl in Hf; try lia; cbn [List_loop]; rewrite Hm;
    rewrite fst_seq, fst_step; unfold call_ListBlobsFlatSegment; cbn [fst].
  - by rewrite Herr.
  - rewrite Hresp. apply IH. lia.
Qed.

Lemma fst_List fuel :
  fst (List remote fuel a ctx pfx) =
    match fst (List_loop remote fuel a ctx pfx {| Val := None |} []) with
    | inl r => r
    | inr keys => Some (Some (sort_Strings keys), None)
    end.
Proof.
  unfold List, func. rewrite fst_defer, fst_seq, fst_step. cbn [emit fst].
  rewrite fst_defer, fst_seq.
  by destruct (fst (List_loop remote fuel a ctx pfx {| Val := None |} [])).
Qed.

Lemma List_serves pages fuel :
  serves remote ctx (container a) pfx {| Val := None |} pages →
  (length pages < fuel)%nat →
  fst (List remote fuel a ctx pfx)
  = Some (Some (sort_Strings (List_keys pfx pages)), None).
Proof.
  intros Hs Hf. rewrite fst_List. by rewrite (List_loop_serves _ _ Hs fuel [] Hf).
Qed.

Lemma List_breaks pages err fuel :
  breaks remote ctx (container a) pfx {| Val := None |} pages err →
  (length pages < fuel)%nat →
  fst (List remote fuel a ctx pfx) = Some (None, Some err).
Proof.
  intros Hb Hf. rewrite fst_List. by rewrite (List_loop_breaks _ _ _ Hb fuel [] Hf).
Qed.

(** A successful [List] returns a sorted slice, whatever the remote store
    answered. *)
Lemma List_sorted fuel keys :
  fst (List remote fuel a ctx pfx) = Some (Some keys, None) →
  StronglySorted string_le keys.
Proof.
  rewrite fst_List.
  destruct (fst (List_loop remote fuel a ctx pfx {| Val := None |} [])) as [r|ks] eqn:E.
  - intros ->. exfalso. revert E. generalize {| Val := None |}. generalize (@nil string).
    induction fuel as [|fuel IH]; intros ks m; cbn [List_loop]; [done|].
    destruct (NotDone m); [|done].
    rewrite fst_seq, fst_step. cbn [fst call_ListBlobsFlatSegment].
    destruct (remote_ListBlobsFlatSegment _ _ _ _ _ _); [apply IH|done].
  - intros [= <-]. apply sort_Strings_sorted.
Qed.

End list_facts.

(** ** The keys made from object names *)

Section key_facts.
Implicit Types (pfx key d rest : string) (keys : list string) (items : list BlobItem).

Lemma HasPrefix_split pfx s :
  strings_HasPrefix s pfx = true → s = pfx +:+ strings_TrimPrefix s pfx.
Proof.
  intros Hp. unfold strings_TrimPrefix. rewrite Hp. unfold strings_HasPrefix in Hp.
  revert s Hp. induction pfx as [|c pfx IH]; intros s Hp.
  - cbn [String.length]. by rewrite app_empty, Nat.sub_0_r, substring_all.
  - destruct s as [|c' s]; cbn [String.prefix] in Hp; [done|].
    destruct (ascii_dec c c') as [<-|]; [|done].
    rewrite app_cons. simpl. f_equal. by apply IH.
Qed.

Lemma no_slash_empty : no_slash "".
Proof. unfold no_slash. cbn. apply not_elem_of_nil. Qed.

Lemma Index_split s :
  strings_Index s "/" ≠ -1 → ∃ d rest, s = d +:+ "/" +:+ rest ∧ no_slash d.
Proof.
  induction s as [|c s IH]; [done|].
  rewrite Index_cons. destruct (decide (c = "/"%char)) as [->|Hc].
  - intros _. exists "", s. split; [done|apply no_slash_empty].
  - destruct (Z.eqb_spec (strings_Index s "/") (-1)) as [|Hs]; [done|].
    intros _. destruct (IH Hs) as (d & rest & -> & Hd).
    exists (String c d), rest. split; [done|]. by apply no_slash_cons.
Qed.

(** A name without delimiter after the prefix is a leaf key, appended as
    it is. *)
Lemma List_item_leaf pfx keys rem :
  no_slash rem →
  List_item pfx keys {| BlobItem_Name := pfx +:+ rem |} = keys ++ [rem].
Proof.
  intros Hr. unfold List_item. cbn [BlobItem_Name].
  by rewrite TrimPrefix_app, (Index_no_slash _ Hr).
Qed.

(** A name with a delimiter after the prefix gives the directory key that
    ends at the first delimiter, added unless it is there already. *)
Lemma List_item_dir pfx keys d rest :
  no_slash d →
  List_item pfx keys {| BlobItem_Name := pfx +:+ d +:+ "/" +:+ rest |}
  = if decide (d +:+ "/" ∈ keys) then keys else keys ++ [d +:+ "/"].
Proof.
  intros Hd. unfold List_item. cbn [BlobItem_Name].
  rewrite TrimPrefix_app, (Index_slash _ _ Hd), slice_to_slash.
  destruct (Z.eqb_spec (len_string d) (-1)) as [E|_]; [unfold len_string in E; lia|].
  done.
Qed.

Lemma Index_dir_key key :
  strings_Index key "/" ≠ -1 →
  strings_Index (slice_to key (strings_Index key "/" + 1)) "/" ≠ -1.
Proof.
  intros (d & rest & -> & Hd)%Index_split.
  rewrite (Index_slash _ _ Hd), slice_to_slash.
  change (d +:+ "/") with (d +:+ "/" +:+ "").
  rewrite (Index_slash _ _ Hd). unfold len_string. lia.
Qed.

(** Leaf keys are as distinct as the names they come from; directory keys
    are added once. *)
Lemma List_item_NoDup pfx items :
  ∀ keys,
    NoDup keys →
    NoDup (key_of pfx <$> items) →
    (∀ k, k ∈ keys → strings_Index k "/" = -1 → k ∉ key_of pfx <$> items) →
    NoDup (foldl (List_item pfx) keys items).
Proof.
  induction items as [|it items IH]; intros keys Hk Hn Hinv; [done|].
  cbn [foldl]. rewrite fmap_cons in Hn, Hinv.
  apply NoDup_cons in Hn as [Hit Hn].
  unfold List_item at 2. fold (key_of pfx it).
  destruct (Z.eqb_spec (strings_Index (key_of pfx it) "/") (-1)) as [Hleaf|Hdir].
  - apply IH; [|done|].
    + apply NoDup_app. split_and!; [done| |apply NoDup_singleton].
      intros k Hin ->%list_elem_of_singleton.
      apply (Hinv _ Hin Hleaf). left.
    + intros k [Hin| ->%list_elem_of_singleton]%elem_of_app Hidx; [|done].
      specialize (Hinv _ Hin Hidx). by apply not_elem_of_cons in Hinv as [_ ?].
  - unfold strutil_AppendIfMissing. case_decide as Hmem.
    + apply IH; [done..|].
      intros k Hin Hidx. specialize (Hinv _ Hin Hidx).
      by apply not_elem_of_cons in Hinv as [_ ?].
    + apply IH; [|done|].
      * apply NoDup_app. split_and!; [done| |apply NoDup_singleton].
        by intros k Hin ->%list_elem_of_singleton.
      * intros k [Hin| ->%list_elem_of_singleton]%elem_of_app Hidx.
        -- specialize (Hinv _ Hin Hidx). by apply not_elem_of_cons in Hinv as [_ ?].
        -- by apply Index_dir_key in Hdir.
Qed.

(** Distinct names that all begin with the prefix give distinct keys. *)
Lemma List_keys_NoDup pfx pages :
  NoDup (blobNames pages) →
  Forall (λ n, strings_HasPrefix n pfx = true) (blobNames pages) →
  NoDup (List_keys pfx pages).
Proof.
  intros Hn Hp. rewrite List_keys_concat. unfold blobNames in *.
  apply List_item_NoDup; [apply NoDup_nil_2| |intros k []%elem_of_nil].
  unfold key_of.
  rewrite (list_fmap_compose BlobItem_Name (λ n, strings_TrimPrefix n pfx)).
  apply NoDup_fmap_2_strong; [|done].
  intros n1 n2 H1 H2 Heq.
  rewrite Forall_forall in Hp.
  rewrite (HasPrefix_split pfx n1), (HasPrefix_split pfx n2) by auto.
  by rewrite Heq.
Qed.

End key_facts.

(** ** List *)

Lemma BlobItem_of_names (items : list BlobItem) (names : list string) :
  BlobItem_Name <$> items = names → items = Build_BlobItem <$> names.
Proof.
  intros <-. rewrite <-list_fmap_compose.
  induction items as [|[n] items IH]; [done|]. cbn. by rewrite <-IH.
Qed.

(** A store that lists its objects in one page serves that page. *)
Lemma storeRemote_serves stored ctx c pfx :
  serves (storeRemote stored) ctx c pfx {| Val := None |}
    [Build_BlobItem <$> filter (λ n, strings_HasPrefix n pfx = true) stored].
Proof.
  exact (serves_page (storeRemote stored) ctx c pfx {| Val := None |}
           {| Segment :=
                {| BlobItems :=
                     Build_BlobItem <$>
                       filter (λ n, strings_HasPrefix n pfx = true) stored |};
              NextMarker := {| Val := Some "" |} |} []
           eq_refl eq_refl
           (serves_done (storeRemote stored) ctx c pfx {| Val := Some "" |} eq_refl)).
Qed.

(** C1: [List] strips the prefix from every name the remote list operation
    returns; a remainder without ['/'] is appended unchanged as a leaf key; a
    remainder with a ['/'] is cut just after the first ['/'] and added as a
    directory key unless it is already there; the keys are returned sorted.
    With the objects a, b/c, b/d, e/f/g stored, [List("")] is
    [a; b/; e/] and [List("b/")] is [c; d]. *)
Theorem List_key_synthesis remote a ctx pfx pages fuel :
  serves remote ctx (container a) pfx {| Val := None |} pages →
  (length pages < fuel)%nat →
  fst (List remote fuel a ctx pfx)
  = Some (Some (sort_Strings (foldl (List_item pfx) [] (concat pages))), None)
  ∧ (∀ keys rem,
       no_slash rem →
       List_item pfx keys {| BlobItem_Name := pfx +:+ rem |} = keys ++ [rem])
  ∧ (∀ keys d rest,
       no_slash d →
       List_item pfx keys {| BlobItem_Name := pfx +:+ d +:+ "/" +:+ rest |}
       = if decide (d +:+ "/" ∈ keys) then keys else keys ++ [d +:+ "/"])
  ∧ (lists_objects ["a"; "b/c"; "b/d"; "e/f/g"] pfx pages →
     (pfx = "" →
      fst (List remote fuel a ctx pfx) = Some (Some ["a"; "b/"; "e/"], None))
     ∧ (pfx = "b/" →
        fst (List remote fuel a ctx pfx) = Some (Some ["c"; "d"], None))).
Proof.
  intros Hs Hf. rewrite (List_serves _ _ _ _ _ _ Hs Hf), List_keys_concat.
  split_and!; [done|apply List_item_leaf|apply List_item_dir|].
  unfold lists_objects, blobNames. intros Hobj.
  split; intros ->; apply BlobItem_of_names in Hobj; rewrite Hobj; reflexivity.
Qed.

Lemma List_key_synthesis_witness :
  fst (List (storeRemote ["a"; "b/c"; "b/d"; "e/f/g"]) 2 someBackend Background "")
  = Some (Some ["a"; "b/"; "e/"], None)
  ∧ fst (List (storeRemote ["a"; "b/c"; "b/d"; "e/f/g"]) 2 someBackend Background "b/")
    = Some (Some ["c"; "d"], None).
Proof.
  assert (Hs : ∀ pfx,
    serves (storeRemote ["a"; "b/c"; "b/d"; "e/f/g"]) Background
      (container someBackend) pfx {| Val := None |}
      [Build_BlobItem <$>
         filter (λ n, strings_HasPrefix n pfx = true) ["a"; "b/c"; "b/d"; "e/f/g"]]).
  { intros pfx. apply storeRemote_serves. }
  assert (Hf : (length [@nil BlobItem] < 2)%nat) by (simpl; lia).
  split.
  - destruct (List_key_synthesis _ _ _ "" _ 2 (Hs "") Hf) as (_ & _ & _ & Hsc).
    destruct Hsc as [Hroot _]; [reflexivity|]. by apply Hroot.
  - destruct (List_key_synthesis _ _ _ "b/" _ 2 (Hs "b/") Hf) as (_ & _ & _ & Hsc).
    destruct Hsc as [_ Hsub]; [reflexivity|]. by apply Hsub.
Defined.

(** C4, as amended: the slice a successful [List] returns is always sorted;
    it has no duplicates when the remote list operation returns no name
    twice and only names that begin with the prefix. *)
Theorem List_sorted_distinct remote a ctx pfx :
  (∀ fuel keys,
     fst (List remote fuel a ctx pfx) = Some (Some keys, None) →
     StronglySorted string_le keys)
  ∧ (∀ pages fuel,
       serves remote ctx (container a) pfx {| Val := None |} pages →
       (length pages < fuel)%nat →
       NoDup (blobNames pages) →
       Forall (λ n, strings_HasPrefix n pfx = true) (blobNames pages) →
       ∃ keys, fst (List remote fuel a ctx pfx) = Some (Some keys, None)
               ∧ StronglySorted string_le keys ∧ NoDup keys).
Proof.
  split; [apply List_sorted|].
  intros pages fuel Hs Hf Hn Hp. eexists. split; [by apply List_serves|].
  split; [apply sort_Strings_sorted|].
  rewrite sort_Strings_perm. by apply List_keys_NoDup.
Qed.

Lemma List_sorted_distinct_witness :
  ∃ keys,
    fst (List (scriptedRemote None None None (Err (errorString "")) None
                 [Ok ["b/d"; "b/c"]; Ok ["a"; "e/f/g"]])
           3 someBackend Background "") = Some (Some keys, None)
    ∧ StronglySorted string_le keys ∧ NoDup keys.
Proof.
  apply (proj2 (List_sorted_distinct _ _ _ "")
           [Build_BlobItem <$> ["b/d"; "b/c"]; Build_BlobItem <$> ["a"; "e/f/g"]]).
  - refine (serves_page _ _ _ _ {| Val := None |}
              {| Segment := {| BlobItems := Build_BlobItem <$> ["b/d"; "b/c"] |};
                 NextMarker := {| Val := Some "m" |} |} _ _ _ _);
      [reflexivity|reflexivity|].
    refine (serves_page _ _ _ _ {| Val := Some "m" |}
              {| Segment := {| BlobItems := Build_BlobItem <$> ["a"; "e/f/g"] |};
                 NextMarker := {| Val := Some "" |} |} _ _ _ _);
      [reflexivity|reflexivity|].
    by apply serves_done.
  - simpl. lia.
  - apply (bool_decide_unpack _). vm_compute. exact I.
  - apply (bool_decide_unpack _). vm_compute. exact I.
Defined.

(** C4, as stated, fails: a name that the remote store returns twice is a
    leaf key twice. *)
Lemma List_repeated_leaf_key :
  fst (List (scriptedRemote None None None (Err (errorString "")) None
               [Ok ["a"]; Ok ["a"]])
         3 someBackend Background "") = Some (Some ["a"; "a"], None)
  ∧ ¬ NoDup ["a"; "a"].
Proof.
  split; [reflexivity|].
  intros [Hin _]%NoDup_cons. apply Hin. left.
Qed.

(** C9: when a page request fails, [List] returns the error and a nil slice;
    the keys of the pages before are dropped. *)
Theorem List_page_failure remote a ctx pfx pages err fuel :
  breaks remote ctx (container a) pfx {| Val := None |} pages err →
  (length pages < fuel)%nat →
  fst (List remote fuel a ctx pfx) = Some (None, Some err).
Proof. apply List_breaks. Qed.

Lemma List_page_failure_witness :
  fst (List (scriptedRemote None None None (Err (errorString "")) None
               [Ok ["a"; "b/c"]; Err (errorString "connection reset")])
         3 someBackend Background "")
  = Some (None, Some (errorString "connection reset")).
Proof.
  apply (List_page_failure _ _ _ _ [Build_BlobItem <$> ["a"; "b/c"]] _ 3).
  - refine (breaks_later _ _ _ _ {| Val := None |}
              {| Segment := {| BlobItems := Build_BlobItem <$> ["a"; "b/c"] |};
                 NextMarker := {| Val := Some "m" |} |} _ _ _ _ _);
      [reflexivity|reflexivity|].
    by apply breaks_now.
  - simpl. lia.
Defined.

(** ** Put, Get and Delete *)

Ltac run_body :=
  unfold func, defer, seq, step, Return, ret, emit,
    call_Upload, call_Download, call_Delete; cbn [fst snd app].

Section crud.
Context {lib : Library} (remote : Remote) (a : AzureBackend) (ctx : Context).

Lemma Put_too_big entry :
  MaxBlobSize ≤ len (Value entry) →
  Put remote a ctx entry
  = (Some (fmt_Errorf "value is bigger than the current supported limit of 4MBytes"),
     [MeasureSince ["azure"; "put"]]).
Proof.
  intros Hlen. unfold Put.
  destruct (Z.geb_spec (len (Value entry)) MaxBlobSize) as [_|]; [done|lia].
Qed.

Lemma Put_uploads entry :
  len (Value entry) < MaxBlobSize →
  Put remote a ctx entry
  = (remote_Upload remote ctx (NewBlockBlobURL (container a) (Key entry)) (Value entry),
     [Acquire (permitPool a);
      Request ctx (UploadBufferToBlockBlob
                     (NewBlockBlobURL (container a) (Key entry)) (Value entry)
                     MaxBlobSize);
      Release (permitPool a);
      MeasureSince ["azure"; "put"]]).
Proof.
  intros Hlen. unfold Put.
  destruct (Z.geb_spec (len (Value entry)) MaxBlobSize) as [|_]; [lia|done].
Qed.

Lemma fst_Get key :
  fst (Get remote a ctx key) =
    match remote_Download remote ctx (NewBlockBlobURL (container a) key) with
    | Err err =>
        match errors_As_StorageError err with
        | Some code =>
            if decide (code = ServiceCodeBlobNotFound) then (None, None)
            else (None, Some (errwrap_Wrapf
                   ("failed to download blob " +:+ strconv_Quote key +:+ ": {{err}}")
                   err))
        | None => (None, Some err)
        end
    | Ok res => (Some {| Key := key; Value := body_data res |}, body_err res)
    end.
Proof.
  unfold Get. run_body.
  destruct (remote_Download _ _ _) as [res|err]; [done|]. cbn [fst snd].
  destruct (errors_As_StorageError err) as [code|]; [|done].
  by destruct (decide (code = ServiceCodeBlobNotFound)).
Qed.

Lemma fst_Delete key :
  fst (Delete remote a ctx key) =
    match remote_Delete remote ctx (NewBlockBlobURL (container a) key) with
    | Some err =>
        match errors_As_StorageError err with
        | Some code =>
            if decide (code = ServiceCodeBlobNotFound) then None
            else Some (errwrap_Wrapf
                   ("failed to delete blob " +:+ strconv_Quote key +:+ ": {{err}}")
                   err)
        | None => Some err
        end
    | None => None
    end.
Proof.
  unfold Delete. run_body.
  destruct (remote_Delete _ _ _) as [err|]; [|done].
  destruct (errors_As_StorageError err) as [code|]; [|done].
  by destruct (decide (code = ServiceCodeBlobNotFound)).
Qed.

End crud.

(** C2: when the remote store answers with the blob-not-found service code,
    [Get] returns [(nil, nil)] and [Delete] returns [nil], for every key. *)
Theorem not_found_is_no_error {lib : Library} remote a ctx key err :
  errors_As_StorageError err = Some ServiceCodeBlobNotFound →
  (remote_Download remote ctx (NewBlockBlobURL (container a) key) = Err err →
   fst (Get remote a ctx key) = (None, None))
  ∧ (remote_Delete remote ctx (NewBlockBlobURL (container a) key) = Some err →
     fst (Delete remote a ctx key) = None).
Proof.
  intros Hcode. split; intros Hr.
  - by rewrite fst_Get, Hr, Hcode.
  - by rewrite fst_Delete, Hr, Hcode.
Qed.

Lemma not_found_is_no_error_witness :
  let remote :=
    scriptedRemote None None None
      (Err (StorageError ServiceCodeBlobNotFound "The specified blob does not exist."))
      (Some (StorageError ServiceCodeBlobNotFound "The specified blob does not exist."))
      [] in
  fst (Get (lib:=plainLibrary) remote someBackend Background "secret/foo") = (None, None)
  ∧ fst (Delete (lib:=plainLibrary) remote someBackend Background "secret/foo") = None.
Proof.
  intros remote.
  destruct (not_found_is_no_error (lib:=plainLibrary) remote someBackend Background
              "secret/foo"
              (StorageError ServiceCodeBlobNotFound "The specified blob does not exist.")
              eq_refl) as [HGet HDelete].
  split; [apply HGet|apply HDelete]; reflexivity.
Defined.

(** C3: [Put] of a value of [MaxBlobSize] bytes or more returns the size
    error at once: no permit is taken and no request is sent.  Below
    [MaxBlobSize] the check passes: the permit is taken, the upload is sent
    and its answer returned. *)
Theorem Put_size_limit remote a ctx entry :
  (MaxBlobSize ≤ len (Value entry) →
   fst (Put remote a ctx entry)
   = Some (fmt_Errorf "value is bigger than the current supported limit of 4MBytes")
   ∧ Forall (λ e, is_remote e = false ∧ is_acquire e = false)
       (snd (Put remote a ctx entry)))
  ∧ (len (Value entry) < MaxBlobSize →
     Put remote a ctx entry
     = (remote_Upload remote ctx (NewBlockBlobURL (container a) (Key entry))
          (Value entry),
        [Acquire (permitPool a);
         Request ctx (UploadBufferToBlockBlob
                        (NewBlockBlobURL (container a) (Key entry)) (Value entry)
                        MaxBlobSize);
         Release (permitPool a);
         MeasureSince ["azure"; "put"]])).
Proof.
  split; intros Hlen.
  - rewrite Put_too_big by done. split; [done|]. by repeat constructor.
  - by apply Put_uploads.
Qed.

Lemma Put_size_limit_witness :
  let remote := storeRemote [] in
  let big := {| Key := "k"; Value := replicate (Z.to_nat MaxBlobSize) Byte.x00 |} in
  let small := {| Key := "k"; Value := [Byte.x01; Byte.x02] |} in
  (fst (Put remote someBackend Background big)
   = Some (fmt_Errorf "value is bigger than the current supported limit of 4MBytes")
   ∧ Forall (λ e, is_remote e = false ∧ is_acquire e = false)
       (snd (Put remote someBackend Background big)))
  ∧ fst (Put remote someBackend Background small) = None.
Proof.
  intros remote big small. split.
  - apply (proj1 (Put_size_limit remote someBackend Background big)).
    unfold big, len. cbn [Value]. rewrite length_replicate, Z2Nat.id; [lia|].
    unfold MaxBlobSize. lia.
  - rewrite (proj2 (Put_size_limit remote someBackend Background small)); [done|].
    unfold small, len, MaxBlobSize. simpl. lia.
Defined.

(** C10: when the download succeeds and reading the body fails, [Get]
    returns an entry, with the requested key and the bytes read so far,
    together with the error. *)
Theorem Get_read_failure {lib : Library} remote a ctx key res err :
  remote_Download remote ctx (NewBlockBlobURL (container a) key) = Ok res →
  body_err res = Some err →
  fst (Get remote a ctx key)
  = (Some {| Key := key; Value := body_data res |}, Some err).
Proof. intros Hr Herr. by rewrite fst_Get, Hr, Herr. Qed.

Lemma Get_read_failure_witness :
  fst (Get (lib:=plainLibrary)
         (scriptedRemote None None None
            (Ok {| body_data := [Byte.x68; Byte.x69];
                   body_err := Some (errorString "unexpected EOF") |})
            None [])
         someBackend Background "secret/foo")
  = (Some {| Key := "secret/foo"; Value := [Byte.x68; Byte.x69] |},
     Some (errorString "unexpected EOF")).
Proof.
  apply (Get_read_failure (lib:=plainLibrary) _ someBackend Background "secret/foo"
           {| body_data := [Byte.x68; Byte.x69];
              body_err := Some (errorString "unexpected EOF") |}); reflexivity.
Defined.

(** C8, as amended: a structured failure of the remote store whose service
    code is not blob-not-found comes back from [Get] and [Delete] wrapped in
    a message that names the operation and the key; [Put] and [List] return
    the failure of the remote store as it is. *)
Theorem remote_failure_context {lib : Library} remote a ctx key err code :
  errors_As_StorageError err = Some code →
  code ≠ ServiceCodeBlobNotFound →
  (remote_Download remote ctx (NewBlockBlobURL (container a) key) = Err err →
   fst (Get remote a ctx key)
   = (None, Some (wrappedError
        ("failed to download blob " +:+ strconv_Quote key +:+ ": {{err}}") err)))
  ∧ (remote_Delete remote ctx (NewBlockBlobURL (container a) key) = Some err →
     fst (Delete remote a ctx key)
     = Some (wrappedError
         ("failed to delete blob " +:+ strconv_Quote key +:+ ": {{err}}") err))
  ∧ (∀ value,
       len value < MaxBlobSize →
       remote_Upload remote ctx (NewBlockBlobURL (container a) key) value = Some err →
       fst (Put remote a ctx {| Key := key; Value := value |}) = Some err)
  ∧ (∀ pages fuel,
       breaks remote ctx (container a) key {| Val := None |} pages err →
       (length pages < fuel)%nat →
       fst (List remote fuel a ctx key) = Some (None, Some err)).
Proof.
  intros Hcode Hne. split_and!.
  - intros Hr. by rewrite fst_Get, Hr, Hcode, decide_False.
  - intros Hr. by rewrite fst_Delete, Hr, Hcode, decide_False.
  - intros value Hlen Hr. by rewrite Put_uploads, <-Hr.
  - intros pages fuel. apply List_breaks.
Qed.

Lemma remote_failure_context_witness :
  let err := StorageError "ServerBusy" "The server is busy." in
  let remote := scriptedRemote None None (Some err) (Err err) (Some err) [Err err] in
  fst (Get (lib:=plainLibrary) remote someBackend Background "secret/foo")
  = (None, Some (wrappedError
       ("failed to download blob " +:+ quote_char +:+ "secret/foo" +:+ quote_char
        +:+ ": {{err}}") err))
  ∧ fst (Delete (lib:=plainLibrary) remote someBackend Background "secret/foo")
    = Some (wrappedError
        ("failed to delete blob " +:+ quote_char +:+ "secret/foo" +:+ quote_char
         +:+ ": {{err}}") err).
Proof.
  intros err remote.
  assert (Hne : "ServerBusy" ≠ ServiceCodeBlobNotFound) by (intros [=]).
  destruct (remote_failure_context (lib:=plainLibrary) remote someBackend Background
              "secret/foo" err "ServerBusy" eq_refl Hne) as (HGet & HDelete & _).
  split; [apply HGet|apply HDelete]; reflexivity.
Defined.

(** C8, as stated, fails: [Put] and [List] return a structured failure of
    the remote store bare. *)
Lemma Put_List_return_bare_failure :
  let err := StorageError "ServerBusy" "The server is busy." in
  let remote := scriptedRemote None None (Some err) (Err err) (Some err) [Err err] in
  errors_As_StorageError err = Some "ServerBusy"
  ∧ "ServerBusy" ≠ ServiceCodeBlobNotFound
  ∧ fst (Put remote someBackend Background
           {| Key := "secret/foo"; Value := [Byte.x01] |}) = Some err
  ∧ fst (List remote 2 someBackend Background "secret/") = Some (None, Some err).
Proof. intros err remote. split_and!; [done|intros [=]|done|done]. Qed.

(** ** Construction *)

Section construction.
Context {lib : Library} (remote : Remote) (logger : Logger).
Implicit Types env conf : gmap string string.

Lemma Getenv_empty k : os_Getenv ∅ k = "".
Proof. unfold os_Getenv. by rewrite lookup_empty. Qed.

Lemma conf_at_resolved env conf :
  Forall (λ s, conf_at (resolved env conf) s.2 = env_first env conf s.1 s.2) settings.
Proof.
  unfold resolved, settings, conf_at. repeat constructor; cbn [foldr fst snd];
    rewrite !lookup_insert; repeat case_decide; simplify_eq; done.
Qed.

Lemma resolved_max_parallel env conf :
  resolved env conf !! "max_parallel" = conf !! "max_parallel".
Proof.
  unfold resolved, settings. cbn [foldr fst snd].
  rewrite !lookup_insert. repeat case_decide; simplify_eq; done.
Qed.

(** [NewAzureBackend] reads each setting from its environment variable
    first: it does with [env] and [conf] what it does without environment
    on the configuration map of the [env_first] values. *)
Lemma NewAzureBackend_resolved env conf :
  NewAzureBackend remote env conf logger
  = NewAzureBackend remote ∅ (resolved env conf) logger.
Proof.
  unfold NewAzureBackend. rewrite !Getenv_empty.
  pose proof (conf_at_resolved env conf) as Hr. unfold settings in Hr.
  repeat (apply Forall_cons in Hr as [? Hr]). cbn [fst snd] in *.
  rewrite resolved_max_parallel.
  repeat match goal with H : conf_at _ _ = _ |- _ => rewrite H; clear H end.
  cbn [String.eqb]. unfold env_first. cbv zeta.
  destruct (String.eqb (os_Getenv env "AZURE_ENVIRONMENT") "") eqn:E;
    rewrite ?E; reflexivity.
Qed.

Lemma env_first_set env conf envVar key :
  os_Getenv env envVar ≠ "" → env_first env conf envVar key = os_Getenv env envVar.
Proof.
  intros Hne. unfold env_first. cbv zeta.
  by destruct (String.eqb_spec (os_Getenv env envVar) "").
Qed.

(** A setting whose environment variable is set does not depend on the
    configuration map. *)
Lemma resolved_insert env conf envVar key v :
  (envVar, key) ∈ settings →
  os_Getenv env envVar ≠ "" →
  resolved env (<[key := v]> conf) = resolved env conf.
Proof.
  intros Hin Hne. apply map_eq. intros k.
  pose proof (env_first_set env conf envVar key Hne) as E1.
  pose proof (env_first_set env (<[key := v]> conf) envVar key Hne) as E2.
  unfold settings in Hin.
  repeat (apply elem_of_cons in Hin as [[= -> ->]|Hin]); [..|by apply elem_of_nil in Hin];
    unfold resolved, settings; cbn [foldr fst snd];
    rewrite E1, E2, !lookup_insert; unfold env_first, conf_at;
    repeat case_decide; subst; rewrite ?lookup_insert_ne by done; done.
Qed.

Lemma NewAzureBackend_missing env conf envVar key :
  (envVar, key) ∈ required_settings →
  os_Getenv env envVar = "" →
  conf_at conf key = "" →
  ∃ err, NewAzureBackend remote env conf logger = (None, Some err, []).
Proof.
  intros Hin Hg Hc. unfold required_settings, settings in Hin. cbn [take] in Hin.
  repeat (apply elem_of_cons in Hin as [[= -> ->]|Hin]); [..|by apply elem_of_nil in Hin];
    unfold NewAzureBackend; rewrite ?Hg, ?Hc; cbv zeta.
  - eauto.
  - destruct (String.eqb (if String.eqb (os_Getenv env "AZURE_BLOB_CONTAINER") ""
                          then conf_at conf "container"
                          else os_Getenv env "AZURE_BLOB_CONTAINER") ""); eauto.
  - destruct (String.eqb (if String.eqb (os_Getenv env "AZURE_BLOB_CONTAINER") ""
                          then conf_at conf "container"
                          else os_Getenv env "AZURE_BLOB_CONTAINER") ""); [by eauto|].
    destruct (String.eqb (if String.eqb (os_Getenv env "AZURE_ACCOUNT_NAME") ""
                          then conf_at conf "accountName"
                          else os_Getenv env "AZURE_ACCOUNT_NAME") ""); eauto.
Qed.

End construction.

(** C5, as amended: each setting (container, account name, account key,
    environment, endpoint) is read from its environment variable first and
    from the configuration map only when the variable is unset or empty;
    construction fails when the container, the account name or the account
    key is in neither. *)
Theorem settings_env_first {lib : Library} remote logger env conf :
  NewAzureBackend remote env conf logger
  = NewAzureBackend remote ∅ (resolved env conf) logger
  ∧ (∀ envVar key v,
       (envVar, key) ∈ settings →
       os_Getenv env envVar ≠ "" →
       NewAzureBackend remote env (<[key := v]> conf) logger
       = NewAzureBackend remote env conf logger)
  ∧ (∀ envVar key,
       (envVar, key) ∈ required_settings →
       os_Getenv env envVar = "" →
       conf_at conf key = "" →
       ∃ err, NewAzureBackend remote env conf logger = (None, Some err, [])).
Proof.
  split_and!.
  - apply NewAzureBackend_resolved.
  - intros envVar key v Hin Hne.
    rewrite (NewAzureBackend_resolved _ _ env (<[key := v]> conf)).
    rewrite (resolved_insert _ _ _ _ _ Hin Hne).
    symmetry. apply NewAzureBackend_resolved.
  - apply NewAzureBackend_missing.
Qed.

Lemma settings_env_first_witness :
  let env : gmap string string := {[ "AZURE_BLOB_CONTAINER" := "from-env" ]} in
  let conf : gmap string string :=
    {[ "container" := "from-conf"; "accountName" := "acct" ]} in
  NewAzureBackend (lib:=plainLibrary) (storeRemote []) env
    (<["container" := "elsewhere"]> conf) {| IsDebug := false |}
  = NewAzureBackend (lib:=plainLibrary) (storeRemote []) env conf {| IsDebug := false |}
  ∧ ∃ err, NewAzureBackend (lib:=plainLibrary) (storeRemote []) env conf
             {| IsDebug := false |} = (None, Some err, []).
Proof.
  intros env conf.
  destruct (settings_env_first (lib:=plainLibrary) (storeRemote [])
              {| IsDebug := false |} env conf) as (_ & Hset & Hmissing).
  split.
  - apply (Hset "AZURE_BLOB_CONTAINER" "container" "elsewhere").
    + apply (bool_decide_unpack _). vm_compute. exact I.
    + vm_compute. discriminate.
  - apply (Hmissing "AZURE_ACCOUNT_KEY" "accountKey").
    + apply (bool_decide_unpack _). vm_compute. exact I.
    + vm_compute. reflexivity.
    + vm_compute. reflexivity.
Defined.

(** C5, as stated, fails: with the container named in the configuration
    map and in the environment, the backend is bound to the container of
    the environment variable. *)
Lemma environment_overrides_configuration :
  let env : gmap string string := {[ "AZURE_BLOB_CONTAINER" := "from-env" ]} in
  let conf : gmap string string :=
    {[ "container" := "from-conf"; "accountName" := "acct"; "accountKey" := "a2V5" ]} in
  conf !! "container" = Some "from-conf"
  ∧ conf_first env conf "AZURE_BLOB_CONTAINER" "container" = "from-conf"
  ∧ fst (NewAzureBackend (lib:=plainLibrary) (storeRemote []) env conf
           {| IsDebug := false |})
    = (Some {| container :=
                 NewContainerURL
                   {| raw := "https://acct.blob.core.windows.net/from-env" |}
                   (NewPipeline {| accountName := "acct"; accountKey := "a2V5" |});
               logger := {| IsDebug := false |};
               permitPool := NewPermitPool 0 |},
       None).
Proof. intros env conf. split_and!; vm_compute; reflexivity. Qed.

(** ** Walking through a function body *)

Section walk.
Context {R A B C : Type}.

Lemma func_Return (r : R) : func (Return r) = (r, []).
Proof. done. Qed.

Lemma func_seq_Return (r : R) (k : A → Body R R) : func (seq (Return r) k) = (r, []).
Proof. done. Qed.

Lemma func_seq_step (m : Eff A) (k : A → Body R R) :
  func (seq (step m) k) = (fst (func (k (fst m))), snd m ++ snd (func (k (fst m)))).
Proof. unfold func, seq, step. cbn [fst snd]. by destruct (k (fst m)) as [[?|?] ?]. Qed.

Lemma seq_assoc (m : Body R A) (k1 : A → Body R B) (k2 : B → Body R C) :
  seq (seq m k1) k2 = seq m (λ a, seq (k1 a) k2).
Proof.
  unfold seq. destruct m as [[r|x] t]; [done|].
  destruct (k1 x) as [[r|y] t1]; [done|].
  destruct (k2 y) as [z t2]. by rewrite app_assoc.
Qed.

End walk.

(** One step along the body of a function: a statement is executed, or the
    condition at the head is decided. *)
Ltac walk_step :=
  first
    [ rewrite func_Return
    | rewrite func_seq_Return
    | rewrite seq_assoc
    | rewrite func_seq_step;
      cbn [fst snd ret emit call_GetProperties call_Create]
    | match goal with
      | |- context [func (seq (match ?x with _ => _ end) _)] => destruct x eqn:?
      | |- context [func (match ?x with _ => _ end)] => destruct x eqn:?
      end ].

Ltac walk := repeat walk_step.

(** C6, as amended: with [max_parallel] present and not an integer,
    construction fails; the setting is parsed after the container probe, so
    its error is returned once the probe has been sent to the remote
    store. *)
Theorem max_parallel_invalid {lib : Library} remote logger env conf s e :
  conf !! "max_parallel" = Some s →
  strconv_Atoi s = Err e →
  (∃ err, fst (NewAzureBackend remote env conf logger) = (None, Some err))
  ∧ (fst (NewAzureBackend remote env conf logger)
     = (None, Some (errwrap_Wrapf "failed parsing max_parallel parameter: {{err}}" e)) →
     ∃ c, Request (WithTimeout Background 5) (GetProperties c)
          ∈ snd (NewAzureBackend remote env conf logger)).
Proof.
  intros Hs He. unfold NewAzureBackend. cbv zeta. rewrite Hs, He. split.
  - walk; cbn [fst]; eauto.
  - unfold errwrap_Wrapf, fmt_Errorf.
    walk; cbn [fst snd app]; intros Heq; simplify_eq;
      eexists; apply list_elem_of_here.
Qed.

Lemma max_parallel_invalid_witness :
  let conf : gmap string string :=
    {[ "container" := "vault"; "accountName" := "acct"; "accountKey" := "a2V5";
       "max_parallel" := "abc" ]} in
  (∃ err, fst (NewAzureBackend (lib:=plainLibrary) (storeRemote []) ∅ conf
                 {| IsDebug := false |}) = (None, Some err))
  ∧ ∃ c, Request (WithTimeout Background 5) (GetProperties c)
         ∈ snd (NewAzureBackend (lib:=plainLibrary) (storeRemote []) ∅ conf
                  {| IsDebug := false |}).
Proof.
  intros conf.
  destruct (max_parallel_invalid (lib:=plainLibrary) (storeRemote [])
              {| IsDebug := false |} ∅ conf "abc"
              (NumError "Atoi" "abc" ErrSyntax)) as [Hfails Hprobe].
  - vm_compute. reflexivity.
  - vm_compute. reflexivity.
  - split; [exact Hfails|]. apply Hprobe. vm_compute. reflexivity.
Defined.

(** C6, as stated, fails: with [max_parallel = "abc"] the parse error comes
    after the container probe has been sent. *)
Lemma max_parallel_parsed_after_probe :
  let conf : gmap string string :=
    {[ "container" := "vault"; "accountName" := "acct"; "accountKey" := "a2V5";
       "max_parallel" := "abc" ]} in
  NewAzureBackend (lib:=plainLibrary) (storeRemote []) ∅ conf {| IsDebug := false |}
  = (None,
     Some (wrappedError "failed parsing max_parallel parameter: {{err}}"
             (NumError "Atoi" "abc" ErrSyntax)),
     [Request (WithTimeout Background 5)
        (GetProperties
           (NewContainerURL {| raw := "https://acct.blob.core.windows.net/vault" |}
              (NewPipeline {| accountName := "acct"; accountKey := "a2V5" |})))])
  ∧ Exists (λ ev, is_remote ev = true)
      (snd (NewAzureBackend (lib:=plainLibrary) (storeRemote []) ∅ conf
              {| IsDebug := false |})).
Proof.
  intros conf. split; [vm_compute; reflexivity|].
  apply (bool_decide_unpack _). vm_compute. exact I.
Qed.

(** C7: a probe failure that is not a structured error of the store is
    dropped: construction goes on as after a probe that succeeded, and
    returns a backend where that one does. *)
Theorem probe_transport_failure_dropped {lib : Library} remote logger env conf err :
  errors_As_StorageError err = None →
  (∀ c, remote_GetProperties remote (WithTimeout Background 5) c = Some err) →
  NewAzureBackend remote env conf logger
  = NewAzureBackend (probe_ok remote) env conf logger.
Proof.
  intros Herr Hprobe. unfold NewAzureBackend. cbv zeta.
  repeat first
    [ rewrite Hprobe, Herr
    | progress cbn [remote_GetProperties remote_Create probe_ok]
    | walk_step ]; reflexivity.
Qed.

Lemma probe_transport_failure_dropped_witness :
  let conf : gmap string string :=
    {[ "container" := "vault"; "accountName" := "acct"; "accountKey" := "a2V5" ]} in
  let remote :=
    scriptedRemote (Some (errorString "context deadline exceeded")) None None
      (Err (errorString "")) None [] in
  NewAzureBackend (lib:=plainLibrary) remote ∅ conf {| IsDebug := false |}
  = NewAzureBackend (lib:=plainLibrary) (probe_ok remote) ∅ conf {| IsDebug := false |}
  ∧ fst (NewAzureBackend (lib:=plainLibrary) remote ∅ conf {| IsDebug := false |})
    = (Some {| container :=
                 NewContainerURL
                   {| raw := "https://acct.blob.core.windows.net/vault" |}
                   (NewPipeline {| accountName := "acct"; accountKey := "a2V5" |});
               logger := {| IsDebug := false |};
               permitPool := NewPermitPool 0 |},
       None).
Proof.
  intros conf remote. split.
  - apply (probe_transport_failure_dropped (lib:=plainLibrary) remote _ _ _
             (errorString "context deadline exceeded")); reflexivity.
  - vm_compute. reflexivity.
Defined.

(** * Further properties *)

(** ** The listing *)

Section listing.
Context (remote : Remote) (a : AzureBackend) (ctx : Context) (pfx : string).

Lemma Index_lower_bound s : -1 ≤ strings_Index s "/".
Proof.
  induction s as [|c s IH]; [done|].
  rewrite Index_cons. destruct (decide (c = "/"%char)); [lia|].
  destruct (Z.eqb_spec (strings_Index s "/") (-1)); lia.
Qed.

Lemma Index_none_no_slash s : strings_Index s "/" = -1 → no_slash s.
Proof.
  induction s as [|c s IH]; [intros _; apply no_slash_empty|].
  rewrite Index_cons. destruct (decide (c = "/"%char)) as [|Hc]; [done|].
  destruct (Z.eqb_spec (strings_Index s "/") (-1)) as [Hs|Hs].
  - intros _. apply no_slash_cons. auto.
  - pose proof (Index_lower_bound s). lia.
Qed.

Lemma List_entry_one_level key : one_level (List_entry key).
Proof.
  unfold List_entry, one_level.
  destruct (Z.eqb_spec (strings_Index key "/") (-1)) as [Hleaf|Hdir].
  - left. by apply Index_none_no_slash.
  - right. destruct (Index_split _ Hdir) as (d & rest & -> & Hd).
    exists d. by rewrite (Index_slash _ _ Hd), slice_to_slash.
Qed.

Lemma elem_of_List_item keys it k :
  k ∈ List_item pfx keys it ↔ k ∈ keys ∨ k = List_entry (key_of pfx it).
Proof.
  unfold List_item, List_entry, strutil_AppendIfMissing. fold (key_of pfx it).
  destruct (strings_Index (key_of pfx it) "/" =? -1).
  - rewrite elem_of_app, list_elem_of_singleton. done.
  - case_decide as Hin.
    + split; [by left|]. by intros [?| ->].
    + rewrite elem_of_app, list_elem_of_singleton. done.
Qed.

Lemma elem_of_List_items items : ∀ keys k,
  k ∈ foldl (List_item pfx) keys items
  ↔ k ∈ keys ∨ ∃ it, it ∈ items ∧ k = List_entry (key_of pfx it).
Proof.
  induction items as [|it items IH]; intros keys k; cbn [foldl].
  - split; [by left|]. intros [?|(it & []%elem_of_nil & _)]. done.
  - rewrite IH, elem_of_List_item. split.
    + intros [[?| ->]|(it' & Hin & ->)]; [by left|right..].
      * exists it. split; [left|done].
      * exists it'. split; [by right|done].
    + intros [?|(it' & [->|Hin]%elem_of_cons & ->)]; [by left; left|by left; right|].
      right. by exists it'.
Qed.

(** A loop that ends normally has been served a complete listing. *)
Lemma List_loop_inr fuel : ∀ m keys ks,
  fst (List_loop remote fuel a ctx pfx m keys) = inr ks →
  ∃ pages, serves remote ctx (container a) pfx m pages
           ∧ (length pages < fuel)%nat
           ∧ ks = foldl (foldl (List_item pfx)) keys pages.
Proof.
  induction fuel as [|fuel IH]; intros m keys ks; cbn [List_loop]; [done|].
  destruct (NotDone m) eqn:Hm.
  - rewrite fst_seq, fst_step. cbn [fst call_ListBlobsFlatSegment].
    destruct (remote_ListBlobsFlatSegment _ _ _ _ _ _) as [resp|err] eqn:Hresp; [|done].
    intros (pages & Hs & Hlen & ->)%IH.
    exists (BlobItems (Segment resp) :: pages). split_and!; [|simpl; lia|done].
    by apply serves_page.
  - intros [= <-]. exists []. split_and!; [by apply serves_done|simpl; lia|done].
Qed.

Lemma List_success fuel keys :
  fst (List remote fuel a ctx pfx) = Some (Some keys, None) →
  ∃ pages, serves remote ctx (container a) pfx {| Val := None |} pages
           ∧ (length pages < fuel)%nat
           ∧ keys = sort_Strings (List_keys pfx pages).
Proof.
  rewrite fst_List.
  destruct (fst (List_loop remote fuel a ctx pfx {| Val := None |} [])) as [r|ks] eqn:E.
  - intros ->. exfalso. revert E. generalize {| Val := None |}. generalize (@nil string).
    induction fuel as [|fuel IH]; intros ks m; cbn [List_loop]; [done|].
    destruct (NotDone m); [|done].
    rewrite fst_seq, fst_step. cbn [fst call_ListBlobsFlatSegment].
    destruct (remote_ListBlobsFlatSegment _ _ _ _ _ _); [apply IH|done].
  - intros [= <-]. apply List_loop_inr in E as (pages & Hs & Hlen & ->). by exists pages.
Qed.

Lemma elem_of_List_keys pages k :
  k ∈ List_keys pfx pages
  ↔ ∃ n, n ∈ blobNames pages ∧ k = List_entry (strings_TrimPrefix n pfx).
Proof.
  rewrite List_keys_concat, elem_of_List_items. unfold blobNames, key_of. split.
  - intros [[]%elem_of_nil|(it & Hin & ->)].
    exists (BlobItem_Name it). split; [by apply list_elem_of_fmap_2|done].
  - intros (n & (it & -> & Hin)%list_elem_of_fmap & ->). right. by exists it.
Qed.



(** While the remote store keeps handing out markers the loop goes on. *)
Lemma List_loop_endless :
  (∀ m, ∃ resp,
     remote_ListBlobsFlatSegment remote ctx (container a) m pfx MaxListResults = Ok resp
     ∧ NotDone (NextMarker resp) = true) →
  ∀ fuel m keys,
    NotDone m = true → fst (List_loop remote fuel a ctx pfx m keys) = inl None.
Proof.
  intros Hmore. induction fuel as [|fuel IH]; intros m keys Hm; cbn [List_loop]; [done|].
  rewrite Hm, fst_seq, fst_step. cbn [fst call_ListBlobsFlatSegment].
  destruct (Hmore m) as (resp & -> & Hnext). by apply IH.
Qed.

End listing.


(** X1: every key of a successful [List] is one level below the prefix: it
    has no delimiter, or it is one segment followed by the delimiter. *)
Theorem List_keys_one_level remote fuel a ctx pfx keys :
  fst (List remote fuel a ctx pfx) = Some (Some keys, None) →
  Forall one_level keys.
Proof.
  intros (pages & _ & _ & ->)%List_success.
  rewrite sort_Strings_perm, List_keys_concat. apply Forall_forall. intros k.
  rewrite elem_of_List_items. intros [[]%elem_of_nil|(it & _ & ->)].
  apply List_entry_one_level.
Qed.

Lemma List_keys_one_level_witness :
  Forall one_level ["a"; "b/"; "e/"].
Proof.
  apply (List_keys_one_level (storeRemote ["a"; "b/c"; "b/d"; "e/f/g"]) 2
           someBackend Background "").
  reflexivity.
Defined.

(** X2: the keys of [List] are exactly the entries of the names that the
    remote store returned: none is left out and none is made up. *)
Theorem List_keys_exact remote a ctx pfx pages fuel :
  serves remote ctx (container a) pfx {| Val := None |} pages →
  (length pages < fuel)%nat →
  ∃ keys,
    fst (List remote fuel a ctx pfx) = Some (Some keys, None)
    ∧ ∀ k, k ∈ keys
           ↔ ∃ n, n ∈ blobNames pages ∧ k = List_entry (strings_TrimPrefix n pfx).
Proof.
  intros Hs Hf. eexists. split; [by apply List_serves|].
  intros k. by rewrite sort_Strings_perm, elem_of_List_keys.
Qed.

Lemma List_keys_exact_witness :
  ∃ keys,
    fst (List (storeRemote ["a"; "b/c"; "b/d"; "e/f/g"]) 2 someBackend Background "b/")
    = Some (Some keys, None)
    ∧ ∀ k, k ∈ keys
           ↔ ∃ n, n ∈ ["b/c"; "b/d"] ∧ k = List_entry (strings_TrimPrefix n "b/").
Proof.
  assert (Hf : (length [Build_BlobItem <$> ["b/c"; "b/d"]] < 2)%nat) by (simpl; lia).
  exact (List_keys_exact (storeRemote ["a"; "b/c"; "b/d"; "e/f/g"]) someBackend
           Background "b/" [Build_BlobItem <$> ["b/c"; "b/d"]] 2
           (storeRemote_serves ["a"; "b/c"; "b/d"; "e/f/g"] Background _ "b/") Hf).
Defined.

(** X3: the result of [List] does not depend on the order in which the
    remote store returns the names, nor on how it cuts them into pages:
    two listings of the same distinct, prefixed names give the same keys. *)
Theorem List_order_independent remote1 remote2 a1 a2 ctx1 ctx2 pfx
    pages1 pages2 fuel1 fuel2 :
  serves remote1 ctx1 (container a1) pfx {| Val := None |} pages1 →
  serves remote2 ctx2 (container a2) pfx {| Val := None |} pages2 →
  (length pages1 < fuel1)%nat →
  (length pages2 < fuel2)%nat →
  blobNames pages1 ≡ₚ blobNames pages2 →
  NoDup (blobNames pages1) →
  Forall (λ n, strings_HasPrefix n pfx = true) (blobNames pages1) →
  fst (List remote1 fuel1 a1 ctx1 pfx) = fst (List remote2 fuel2 a2 ctx2 pfx).
Proof.
  intros Hs1 Hs2 Hf1 Hf2 Hperm Hnd Hpfx.
  rewrite (List_serves _ _ _ _ _ _ Hs1 Hf1), (List_serves _ _ _ _ _ _ Hs2 Hf2).
  do 2 f_equal. f_equal. apply sort_Strings_unique; [apply sort_Strings_sorted|].
  rewrite sort_Strings_perm. apply NoDup_Permutation.
  - by apply List_keys_NoDup.
  - apply List_keys_NoDup; by rewrite <-Hperm.
  - intros k. rewrite !elem_of_List_keys. by setoid_rewrite Hperm.
Qed.

Lemma List_order_independent_witness :
  fst (List (scriptedRemote None None None (Err (errorString "")) None
               [Ok ["b/d"; "a"]; Ok ["e/f/g"; "b/c"]])
         3 someBackend Background "")
  = fst (List (storeRemote ["a"; "b/c"; "b/d"; "e/f/g"]) 2 someBackend Background "").
Proof.
  apply (List_order_independent _ _ _ _ _ _ ""
           [Build_BlobItem <$> ["b/d"; "a"]; Build_BlobItem <$> ["e/f/g"; "b/c"]]
           [Build_BlobItem <$> ["a"; "b/c"; "b/d"; "e/f/g"]]).
  - refine (serves_page _ _ _ _ {| Val := None |}
              {| Segment := {| BlobItems := Build_BlobItem <$> ["b/d"; "a"] |};
                 NextMarker := {| Val := Some "m" |} |} _ _ _ _);
      [reflexivity|reflexivity|].
    refine (serves_page _ _ _ _ {| Val := Some "m" |}
              {| Segment := {| BlobItems := Build_BlobItem <$> ["e/f/g"; "b/c"] |};
                 NextMarker := {| Val := Some "" |} |} _ _ _ _);
      [reflexivity|reflexivity|].
    by apply serves_done.
  - apply (storeRemote_serves ["a"; "b/c"; "b/d"; "e/f/g"] Background _ "").
  - simpl. lia.
  - simpl. lia.
  - apply (bool_decide_unpack _). vm_compute. exact I.
  - apply (bool_decide_unpack _). vm_compute. exact I.
  - apply (bool_decide_unpack _). vm_compute. exact I.
Defined.

(** X4: [List] puts no bound on the number of pages: against a remote
    store that answers every page request with a marker for a further
    page, it is still in its loop after any number of turns. *)
Theorem List_endless remote a ctx pfx :
  (∀ m, ∃ resp,
     remote_ListBlobsFlatSegment remote ctx (container a) m pfx MaxListResults = Ok resp
     ∧ NotDone (NextMarker resp) = true) →
  ∀ fuel, fst (List remote fuel a ctx pfx) = None.
Proof.
  intros Hmore fuel. rewrite fst_List.
  by rewrite (List_loop_endless _ _ _ _ Hmore fuel {| Val := None |} []).
Qed.

Lemma List_endless_witness :
  fst (List endlessRemote 1000 someBackend Background "") = None.
Proof.
  apply (List_endless endlessRemote someBackend Background ""). intros m.
  exists {| Segment := {| BlobItems := [] |}; NextMarker := {| Val := Some "more" |} |}.
  split; reflexivity.
Defined.



Lemma List_loop_inl remote a ctx pfx fuel : ∀ m keys r,
  fst (List_loop remote fuel a ctx pfx m keys) = inl (Some r) →
  ∃ pages err, r = (None, Some err)
               ∧ breaks remote ctx (container a) pfx m pages err
               ∧ (length pages < fuel)%nat.
Proof.
  induction fuel as [|fuel IH]; intros m keys r; cbn [List_loop]; [done|].
  destruct (NotDone m) eqn:Hm; [|done].
  rewrite fst_seq, fst_step. cbn [fst call_ListBlobsFlatSegment].
  destruct (remote_ListBlobsFlatSegment _ _ _ _ _ _) as [resp|err] eqn:Hresp.
  - intros (pages & err & -> & Hb & Hlen)%IH.
    exists (BlobItems (Segment resp) :: pages), err.
    split_and!; [done| |simpl; lia]. by apply breaks_later.
  - intros [= <-]. exists [], err. split_and!; [done| |simpl; lia]. by apply breaks_now.
Qed.

(** X17: what [List] returns is the sorted keys of a complete listing, with
    a nil error, or a nil slice with the error of the page request that
    failed; it never returns keys together with an error. *)
Theorem List_outcome remote fuel a ctx pfx r :
  fst (List remote fuel a ctx pfx) = Some r →
  (∃ pages,
     serves remote ctx (container a) pfx {| Val := None |} pages
     ∧ r = (Some (sort_Strings (List_keys pfx pages)), None))
  ∨ (∃ pages err,
       breaks remote ctx (container a) pfx {| Val := None |} pages err
       ∧ r = (None, Some err)).
Proof.
  rewrite fst_List.
  destruct (fst (List_loop remote fuel a ctx pfx {| Val := None |} [])) as [o|ks] eqn:E.
  - intros ->. apply List_loop_inl in E as (pages & err & -> & Hb & _).
    right. by exists pages, err.
  - intros [= <-]. apply List_loop_inr in E as (pages & Hs & _ & ->).
    left. by exists pages.
Qed.

Lemma List_outcome_witness :
  let remote :=
    scriptedRemote None None None (Err (errorString "")) None
      [Ok ["a"; "b/c"]; Err (errorString "connection reset")] in
  (∃ pages,
     serves remote Background (container someBackend) "" {| Val := None |} pages
     ∧ (None, Some (errorString "connection reset"))
       = (Some (sort_Strings (List_keys "" pages)), None))
  ∨ (∃ pages err,
       breaks remote Background (container someBackend) "" {| Val := None |} pages err
       ∧ (@None (list string), Some (errorString "connection reset"))
         = (None, Some err)).
Proof.
  intros remote.
  apply (List_outcome remote 3 someBackend Background "").
  reflexivity.
Defined.

(** ** Get and Delete *)


(** X7: [Delete] reports success exactly when the remote store deleted the
    blob or said it does not exist, and [Get] reports an absent entry
    without error exactly when the remote store said the blob does not
    exist. *)
Theorem absent_iff_not_found {lib : Library} remote a ctx key :
  (fst (Delete remote a ctx key) = None
   ↔ remote_Delete remote ctx (NewBlockBlobURL (container a) key) = None
     ∨ ∃ err, remote_Delete remote ctx (NewBlockBlobURL (container a) key) = Some err
              ∧ errors_As_StorageError err = Some ServiceCodeBlobNotFound)
  ∧ (fst (Get remote a ctx key) = (None, None)
     ↔ ∃ err, remote_Download remote ctx (NewBlockBlobURL (container a) key) = Err err
              ∧ errors_As_StorageError err = Some ServiceCodeBlobNotFound).
Proof.
  rewrite fst_Delete, fst_Get. split.
  - destruct (remote_Delete _ _ _) as [err|]; [|by split; [left|]].
    destruct (errors_As_StorageError err) as [code|] eqn:Hcode.
    + destruct (decide (code = ServiceCodeBlobNotFound)) as [->|Hne].
      * split; [|done]. intros _. right. by exists err.
      * split; [done|]. intros [|(err' & [= <-] & Hc)]; [done|]. congruence.
    + split; [done|]. intros [|(err' & [= <-] & Hc)]; [done|]. congruence.
  - destruct (remote_Download _ _ _) as [res|err].
    + split; [done|]. by intros (err & ? & _).
    + destruct (errors_As_StorageError err) as [code|] eqn:Hcode.
      * destruct (decide (code = ServiceCodeBlobNotFound)) as [->|Hne].
        -- split; [|done]. intros _. by exists err.
        -- split; [done|]. intros (err' & [= <-] & Hc). congruence.
      * split; [done|]. intros (err' & [= <-] & Hc). congruence.
Qed.

(** X8: a failure that carries no structured error of the store (a
    transport failure) comes back from [Get] and [Delete] as it is. *)
Theorem transport_failure_unchanged {lib : Library} remote a ctx key err :
  errors_As_StorageError err = None →
  (remote_Download remote ctx (NewBlockBlobURL (container a) key) = Err err →
   fst (Get remote a ctx key) = (None, Some err))
  ∧ (remote_Delete remote ctx (NewBlockBlobURL (container a) key) = Some err →
     fst (Delete remote a ctx key) = Some err).
Proof.
  intros Hcode. split; intros Hr.
  - by rewrite fst_Get, Hr, Hcode.
  - by rewrite fst_Delete, Hr, Hcode.
Qed.

Lemma transport_failure_unchanged_witness :
  let err := errorString "connection reset by peer" in
  let remote := scriptedRemote None None None (Err err) (Some err) [] in
  fst (Get (lib:=plainLibrary) remote someBackend Background "secret/foo")
  = (None, Some err)
  ∧ fst (Delete (lib:=plainLibrary) remote someBackend Background "secret/foo")
    = Some err.
Proof.
  intros err remote.
  destruct (transport_failure_unchanged (lib:=plainLibrary) remote someBackend
              Background "secret/foo" err eq_refl) as [HGet HDelete].
  split; [apply HGet|apply HDelete]; reflexivity.
Defined.

(** X9: an entry that [Get] returns carries the requested key and the bytes
    read from the body of a download that succeeded; without a successful
    download there is no entry. *)
Theorem Get_entry {lib : Library} remote a ctx key ent oerr :
  fst (Get remote a ctx key) = (Some ent, oerr) →
  ∃ res, remote_Download remote ctx (NewBlockBlobURL (container a) key) = Ok res
         ∧ ent = {| Key := key; Value := body_data res |}
         ∧ oerr = body_err res.
Proof.
  rewrite fst_Get. destruct (remote_Download _ _ _) as [res|err].
  - intros [= <- <-]. by exists res.
  - destruct (errors_As_StorageError err) as [code|]; [|done].
    by destruct (decide (code = ServiceCodeBlobNotFound)).
Qed.

Lemma Get_entry_witness :
  ∃ res,
    remote_Download
      (scriptedRemote None None None
         (Ok {| body_data := [Byte.x68; Byte.x69]; body_err := None |}) None [])
      Background (NewBlockBlobURL (container someBackend) "secret/foo") = Ok res
    ∧ {| Key := "secret/foo"; Value := [Byte.x68; Byte.x69] |}
      = {| Key := "secret/foo"; Value := body_data res |}
    ∧ None = body_err res.
Proof.
  apply (Get_entry (lib:=plainLibrary) _ someBackend Background "secret/foo").
  reflexivity.
Defined.

(** ** Construction, further *)

Lemma environment_name_code env conf :
  (if String.eqb (os_Getenv env "AZURE_ENVIRONMENT") ""
   then if String.eqb (conf_at conf "environment") ""
        then "AzurePublicCloud" else conf_at conf "environment"
   else os_Getenv env "AZURE_ENVIRONMENT")
  = environment_name env conf.
Proof.
  unfold environment_name, env_first. cbv zeta.
  destruct (String.eqb (os_Getenv env "AZURE_ENVIRONMENT") "") eqn:E; [done|].
  by rewrite E.
Qed.

(** X10: [NewAzureBackend] returns a backend or an error, never both and
    never neither; the backend keeps the logger, and its permit pool is made
    with the parsed [max_parallel], or with 0 when the setting is absent. *)
Theorem construction_outcome {lib : Library} remote logger0 env conf :
  (∃ b, fst (NewAzureBackend remote env conf logger0) = (Some b, None)
        ∧ logger b = logger0
        ∧ match conf !! "max_parallel" with
          | Some s => strconv_Atoi s = Ok (permits (permitPool b))
          | None => permits (permitPool b) = 0
          end)
  ∨ (∃ err, fst (NewAzureBackend remote env conf logger0) = (None, Some err)).
Proof.
  unfold NewAzureBackend. cbv zeta.
  walk; cbn [fst]; try (right; by eexists); left; eexists; split_and!; done.
Qed.

(** X11: a backend that [NewAzureBackend] returns is bound to the container
    and account of the settings: its URL is the parse of
    [https://<account>.blob.<suffix>/<container>], with the suffix of the
    environment looked up by endpoint, or by name when there is no endpoint;
    its credential is made of the account name and key; and that container
    has been probed. *)
Theorem construction_binding {lib : Library} remote logger0 env conf b :
  fst (NewAzureBackend remote env conf logger0) = (Some b, None) →
  let name := env_first env conf "AZURE_BLOB_CONTAINER" "container" in
  let account := env_first env conf "AZURE_ACCOUNT_NAME" "accountName" in
  let key := env_first env conf "AZURE_ACCOUNT_KEY" "accountKey" in
  let endpoint := env_first env conf "AZURE_ARM_ENDPOINT" "arm_endpoint" in
  name ≠ "" ∧ account ≠ "" ∧ key ≠ ""
  ∧ ∃ environment,
      (if String.eqb endpoint ""
       then azure_EnvironmentFromName (environment_name env conf)
       else azure_EnvironmentFromURL endpoint) = Ok environment
      ∧ azblob_NewSharedKeyCredential account key
        = Ok (credential (containerURL_p (container b)))
      ∧ url_Parse ("https://" +:+ account +:+ ".blob."
                   +:+ StorageEndpointSuffix environment +:+ "/" +:+ name)
        = Ok (containerURL_url (container b))
      ∧ Request (WithTimeout Background 5) (GetProperties (container b))
        ∈ snd (NewAzureBackend remote env conf logger0).
Proof.
  unfold NewAzureBackend. cbv zeta. rewrite environment_name_code.
  unfold env_first. cbv zeta.
  walk; cbn [fst snd app]; intros Heq; simplify_eq.
  all: cbn [container containerURL_p containerURL_url credential NewContainerURL
            NewPipeline].
  all: repeat match goal with
         | H : String.eqb _ "" = false |- _ => apply String.eqb_neq in H
         end.
  all: split_and!; [done..|]; eexists; split_and!; [|done|done|apply list_elem_of_here].
  all: match goal with
       | H : negb (String.eqb ?x "") = _ |- _ =>
           destruct (String.eqb x "") eqn:?; cbn [negb] in H; try done
       end.
Qed.

Lemma construction_binding_witness :
  let conf : gmap string string :=
    {[ "container" := "vault"; "accountName" := "acct"; "accountKey" := "a2V5" ]} in
  let b := {| container :=
                NewContainerURL {| raw := "https://acct.blob.core.windows.net/vault" |}
                  (NewPipeline {| accountName := "acct"; accountKey := "a2V5" |});
              logger := {| IsDebug := false |};
              permitPool := NewPermitPool 0 |} in
  Request (WithTimeout Background 5) (GetProperties (container b))
  ∈ snd (NewAzureBackend (lib:=plainLibrary) (storeRemote []) ∅ conf
           {| IsDebug := false |}).
Proof.
  intros conf b.
  destruct (construction_binding (lib:=plainLibrary) (storeRemote [])
              {| IsDebug := false |} ∅ conf b)
    as (_ & _ & _ & environment & _ & _ & _ & Hprobe).
  - vm_compute. reflexivity.
  - exact Hprobe.
Defined.


(** X13: when the probe says the container does not exist, the container is
    created: if the creation succeeds, construction ends as after a probe
    that found the container, and a returned backend has had its container
    created; if the creation fails, no backend is returned. *)
Theorem container_created_when_missing {lib : Library} remote logger0 env conf err :
  errors_As_StorageError err = Some ServiceCodeContainerNotFound →
  (∀ c, remote_GetProperties remote (WithTimeout Background 5) c = Some err) →
  ((∀ c, remote_Create remote (WithTimeout Background 5) c = None) →
   fst (NewAzureBackend remote env conf logger0)
   = fst (NewAzureBackend (probe_ok remote) env conf logger0)
   ∧ ∀ b, fst (NewAzureBackend remote env conf logger0) = (Some b, None) →
          Request (WithTimeout Background 5) (Create (container b))
          ∈ snd (NewAzureBackend remote env conf logger0))
  ∧ (∀ cerr,
       (∀ c, remote_Create remote (WithTimeout Background 5) c = Some cerr) →
       ∃ e, fst (NewAzureBackend remote env conf logger0) = (None, Some e)).
Proof.
  intros Herr Hprobe. split.
  - intros Hcreate. unfold NewAzureBackend. cbv zeta.
    repeat first
      [ rewrite Hprobe, Herr, decide_True by done
      | rewrite Hcreate
      | progress cbn [remote_GetProperties remote_Create probe_ok]
      | walk_step ];
      cbn [fst snd app]; (split; [reflexivity|]); intros b Heq; simplify_eq;
      cbn [container]; apply list_elem_of_further, list_elem_of_here.
  - intros cerr Hcreate. unfold NewAzureBackend. cbv zeta.
    repeat first
      [ rewrite Hprobe, Herr, decide_True by done | rewrite Hcreate | walk_step ];
      cbn [fst]; by eexists.
Qed.

Lemma container_created_when_missing_witness :
  let conf : gmap string string :=
    {[ "container" := "vault"; "accountName" := "acct"; "accountKey" := "a2V5" ]} in
  let err := StorageError ServiceCodeContainerNotFound "no such container" in
  let remote := scriptedRemote (Some err) None None (Err (errorString "")) None [] in
  let failing :=
    scriptedRemote (Some err) (Some (errorString "forbidden")) None
      (Err (errorString "")) None [] in
  fst (NewAzureBackend (lib:=plainLibrary) remote ∅ conf {| IsDebug := false |})
  = fst (NewAzureBackend (lib:=plainLibrary) (probe_ok remote) ∅ conf
           {| IsDebug := false |})
  ∧ ∃ e, fst (NewAzureBackend (lib:=plainLibrary) failing ∅ conf {| IsDebug := false |})
         = (None, Some e).
Proof.
  intros conf err remote failing. split.
  - destruct (container_created_when_missing (lib:=plainLibrary) remote
                {| IsDebug := false |} ∅ conf err eq_refl) as [Hok _];
      [reflexivity|].
    destruct Hok as [Hsame _]; [reflexivity|exact Hsame].
  - destruct (container_created_when_missing (lib:=plainLibrary) failing
                {| IsDebug := false |} ∅ conf err eq_refl) as [_ Hfail];
      [reflexivity|].
    apply (Hfail (errorString "forbidden")). reflexivity.
Defined.

(** X14: a structured failure of the probe with a service code other than
    container-not-found ends construction with an error, and no container is
    created. *)
Theorem probe_failure_fatal {lib : Library} remote logger0 env conf err code :
  errors_As_StorageError err = Some code →
  code ≠ ServiceCodeContainerNotFound →
  (∀ c, remote_GetProperties remote (WithTimeout Background 5) c = Some err) →
  (∃ e, fst (NewAzureBackend remote env conf logger0) = (None, Some e))
  ∧ Forall (λ ev, ∀ ctx c, ev ≠ Request ctx (Create c))
      (snd (NewAzureBackend remote env conf logger0)).
Proof.
  intros Herr Hne Hprobe. unfold NewAzureBackend. cbv zeta.
  repeat first
    [ rewrite Hprobe, Herr, (decide_False (P:=code = ServiceCodeContainerNotFound)) by done
    | walk_step ];
    cbn [fst snd app]; (split; [by eexists|]); by repeat constructor.
Qed.

Lemma probe_failure_fatal_witness :
  let conf : gmap string string :=
    {[ "container" := "vault"; "accountName" := "acct"; "accountKey" := "a2V5" ]} in
  let err := StorageError "AuthenticationFailed" "bad key" in
  let remote := scriptedRemote (Some err) None None (Err (errorString "")) None [] in
  (∃ e, fst (NewAzureBackend (lib:=plainLibrary) remote ∅ conf {| IsDebug := false |})
        = (None, Some e))
  ∧ Forall (λ ev, ∀ ctx c, ev ≠ Request ctx (Create c))
      (snd (NewAzureBackend (lib:=plainLibrary) remote ∅ conf {| IsDebug := false |})).
Proof.
  intros conf err remote.
  apply (probe_failure_fatal (lib:=plainLibrary) remote {| IsDebug := false |} ∅ conf
           err "AuthenticationFailed").
  - reflexivity.
  - intros [=].
  - reflexivity.
Defined.

Lemma conf_at_insert_ne (conf : gmap string string) k k' v :
  k ≠ k' → conf_at (<[k := v]> conf) k' = conf_at conf k'.
Proof. intros Hne. unfold conf_at. by rewrite lookup_insert_ne. Qed.

Lemma conf_at_insert_eq (conf : gmap string string) k v :
  conf_at (<[k := v]> conf) k = v.
Proof. unfold conf_at. by rewrite lookup_insert_eq. Qed.

(** X15: with an endpoint set, in the environment or in the configuration
    map, the environment name plays no part: whatever name the
    configuration map or the environment holds, construction does the
    same. *)
Theorem endpoint_overrides_environment {lib : Library} remote logger0 env conf v :
  env_first env conf "AZURE_ARM_ENDPOINT" "arm_endpoint" ≠ "" →
  NewAzureBackend remote env (<["environment" := v]> conf) logger0
  = NewAzureBackend remote env conf logger0
  ∧ NewAzureBackend remote (<["AZURE_ENVIRONMENT" := v]> env) conf logger0
    = NewAzureBackend remote env conf logger0.
Proof.
  unfold env_first. cbv zeta. intros Hendpoint.
  apply String.eqb_neq in Hendpoint.
  split; unfold NewAzureBackend; cbv zeta.
  - rewrite !conf_at_insert_ne, lookup_insert_ne by done.
    rewrite Hendpoint. reflexivity.
  - unfold os_Getenv. rewrite !(lookup_insert_ne env "AZURE_ENVIRONMENT") by done.
    fold (os_Getenv env "AZURE_BLOB_CONTAINER") (os_Getenv env "AZURE_ACCOUNT_NAME")
      (os_Getenv env "AZURE_ACCOUNT_KEY") (os_Getenv env "AZURE_ARM_ENDPOINT").
    rewrite Hendpoint. reflexivity.
Qed.

Lemma endpoint_overrides_environment_witness :
  let conf : gmap string string :=
    {[ "container" := "vault"; "accountName" := "acct"; "accountKey" := "a2V5";
       "arm_endpoint" := "https://management.example.net" ]} in
  NewAzureBackend (lib:=plainLibrary) (storeRemote []) ∅
    (<["environment" := "NoSuchCloud"]> conf) {| IsDebug := false |}
  = NewAzureBackend (lib:=plainLibrary) (storeRemote []) ∅ conf {| IsDebug := false |}.
Proof.
  intros conf.
  apply (endpoint_overrides_environment (lib:=plainLibrary) (storeRemote [])
           {| IsDebug := false |} ∅ conf "NoSuchCloud").
  vm_compute. discriminate.
Defined.

(** X16: when neither the environment nor the configuration map names a
    cloud environment, construction does what it does for
    [AzurePublicCloud]. *)
Theorem default_environment {lib : Library} remote logger0 env conf :
  os_Getenv env "AZURE_ENVIRONMENT" = "" →
  conf_at conf "environment" = "" →
  NewAzureBackend remote env conf logger0
  = NewAzureBackend remote env (<["environment" := "AzurePublicCloud"]> conf) logger0.
Proof.
  intros Henv Hconf. unfold NewAzureBackend. cbv zeta.
  rewrite !conf_at_insert_ne, lookup_insert_ne, conf_at_insert_eq by done.
  rewrite Henv, Hconf. reflexivity.
Qed.

Lemma default_environment_witness :
  let conf : gmap string string :=
    {[ "container" := "vault"; "accountName" := "acct"; "accountKey" := "a2V5" ]} in
  NewAzureBackend (lib:=plainLibrary) (storeRemote []) ∅ conf {| IsDebug := false |}
  = NewAzureBackend (lib:=plainLibrary) (storeRemote []) ∅
      (<["environment" := "AzurePublicCloud"]> conf) {| IsDebug := false |}.
Proof.
  intros conf.
  apply (default_environment (lib:=plainLibrary) (storeRemote [])
           {| IsDebug := false |} ∅ conf); vm_compute; reflexivity.
Defined.
